(** * Workout session controller (WorkoutScreen): a shallow embedding

    The screen component keeps its session state in React [useState]
    cells and changes it from event handlers ([startWorkout],
    [togglePause], [updateProgress], [completeExercise],
    [skipCurrentExercise], the rest-timer handlers), from two interval
    callbacks (the workout clock and the rest countdown) and from effects
    (context synchronisation and the abandonment reset).

    Modelling choices.
    - The state cells are the fields of the record [State]; the
      workout-in-progress flag of the surrounding context is one more field.
    - A handler is a function in the monad [Handler]: it threads the state,
      collects the observable events (remote calls with their outcome,
      alerts, scrolling) and ends normally, by an early [return] or by a
      thrown exception; [try_catch_finally] is the JavaScript statement.
    - A handler reads the values captured at render time (the snapshot [r])
      and writes through the setters; it runs to completion before the next
      operation starts, so the interleaving of two pending asynchronous
      handlers is outside the model.
    - Remote calls are answered by an environment record [Env].
    - JavaScript arrays of objects are lists of optional records (a hole or
      an index out of range reads as [None], a write past the end extends the
      array); numbers are integers. *)

From Stdlib Require Import ZArith List String Ascii Bool Lia QArith.
From stdpp Require Import base list strings pretty.
Import ListNotations.

#[local] Open Scope string_scope.
#[local] Open Scope list_scope.
#[local] Open Scope Z_scope.

(** ** Plan data (read-only, received from the server) *)

(** Modelled from the spec: the declaration of [ExerciseSet] lives in the
    SetTracker component, which is not part of the sources at hand; a set is
    a logged repetition group with reps, weight and a completion flag. *)
Record ExerciseSet : Type := mkSet {
  set_reps : Z;
  set_weight : Z;
  set_done : bool
}.

Record WorkoutBlockWithExercise : Type := mkExercise {
  ex_id : Z;
  ex_name : string;
  ex_sets : option Z;
  ex_reps : option Z;
  ex_weight : option Z;
  ex_duration : option Z;
  ex_restTime : option Z
}.

Record WorkoutBlockWithExercises : Type := mkBlock {
  block_id : Z;
  blockName : string;
  rounds : option Z;
  exercises_of_block : list WorkoutBlockWithExercise
}.

Record PlanDayWithBlocks : Type := mkDay {
  day_id : Z;
  workoutId : Z;
  day_date : string;
  isComplete : bool;
  blocks : list WorkoutBlockWithExercises
}.

(** [x || 0] on an optional number. *)
Definition or_zero (o : option Z) : Z :=
  match o with Some v => v | None => 0 end.

(** Truthiness of a number: [0] is falsy. *)
Definition truthy (z : Z) : bool := negb (z =? 0).

(** ** Session-local progress records *)

(** A progress object; every property may be absent, as in
    [{...undefined, [field]: value}]. [isSkipped] is added by
    [skipCurrentExercise]. *)
Record ExerciseProgress : Type := mkProgress {
  setsCompleted : option Z;
  repsCompleted : option Z;
  roundsCompleted : option Z;
  weightUsed : option Z;
  sets : option (list ExerciseSet);
  duration : option Z;
  restTime : option Z;
  notes : option string;
  isSkipped : option bool
}.

Definition empty_object : ExerciseProgress :=
  mkProgress None None None None None None None None None.

(** ** JavaScript arrays with holes *)

Definition js_get {A : Type} (l : list (option A)) (i : nat) : option A :=
  mjoin (l !! i).

Definition js_set {A : Type} (l : list (option A)) (i : nat) (v : A)
  : list (option A) :=
  if decide (i < length l)%nat then <[i := Some v]> l
  else l ++ replicate (i - length l)%nat None ++ [Some v].

(** ** Dates

    An instant is a number of milliseconds since the epoch; the device has a
    time zone; the simplest one is a fixed offset [tz] (minutes east of
    UTC). *)

Definition msPerDay : Z := 86400000.
Definition msPerMinute : Z := 60000.

(** Civil date (year, month, day) of a day number counted from 1970-01-01,
    proleptic Gregorian calendar, as [Date.prototype.toISOString] uses. *)
Definition civil_from_days (days : Z) : Z * Z * Z :=
  let z := days + 719468 in
  let era := z / 146097 in
  let doe := z - era * 146097 in
  let yoe := (doe - doe / 1460 + doe / 36524 - doe / 146096) / 365 in
  let y := yoe + era * 400 in
  let doy := doe - (365 * yoe + yoe / 4 - yoe / 100) in
  let mp := (5 * doy + 2) / 153 in
  let d := doy - (153 * mp + 2) / 5 + 1 in
  let m := if mp <? 10 then mp + 3 else mp - 9 in
  (if m <=? 2 then y + 1 else y, m, d).

Definition digit (d : Z) : string :=
  String (ascii_of_N (Z.to_N (48 + d mod 10))) EmptyString.

Definition pad2 (n : Z) : string := (digit (n / 10) ++ digit n)%string.
Definition pad4 (n : Z) : string := (pad2 (n / 100) ++ pad2 n)%string.
Definition pad6 (n : Z) : string := (pad2 (n / 10000) ++ pad4 n)%string.

(** The year of an ISO string: four digits, or a sign and six digits
    outside 0..9999. *)
Definition iso_year (y : Z) : string :=
  if (0 <=? y) && (y <=? 9999) then pad4 y
  else String.append (if y <? 0 then "-" else "+") (pad6 (Z.abs y)).

Definition ymd_string (c : Z * Z * Z) : string :=
  let '(y, m, d) := c in
  (iso_year y ++ "-" ++ pad2 m ++ "-" ++ pad2 d)%string.

(** [date.toISOString().split("T")[0]]: the calendar date in UTC. *)
Definition toISOString_date (t : Z) : string :=
  ymd_string (civil_from_days (t / msPerDay)).

(** The time zone of the device as ECMAScript sees it (LocalTZA): the
    offset from UTC, in milliseconds, in force at a UTC instant, and the
    offset used to read a local wall-clock time back as an instant. On a
    device with daylight saving both depend on their argument. *)
Record TimeZone : Type := mkZone {
  localTZA_of_utc : Z -> Z;
  localTZA_of_local : Z -> Z
}.

(** A device whose offset never changes: [tz] minutes east of UTC. *)
Definition fixed_zone (tz : Z) : TimeZone :=
  mkZone (fun _ => tz * msPerMinute) (fun _ => tz * msPerMinute).

Definition LocalTime (zone : TimeZone) (t : Z) : Z :=
  t + localTZA_of_utc zone t.

Definition UTC (zone : TimeZone) (tlocal : Z) : Z :=
  tlocal - localTZA_of_local zone tlocal.

(** [d.setDate(d.getDate() + k)]: the local wall-clock time of the instant
    is moved by [k] calendar days, keeping the local time of day, and the
    result is read back as an instant with the offset in force there
    (instants stay within the range of [Date]). *)
Definition setDate_relative (zone : TimeZone) (t k : Z) : Z :=
  UTC zone (LocalTime zone t + k * msPerDay).

(** Modelled from the spec: the helpers [getCurrentDate] and
    [formatDateAsString] of the utils module are not part of the sources at
    hand; the spec has dates normalised to a local YYYY-MM-DD string. This
    is that string for the instant [t] on a device [tz] minutes east of
    UTC. *)
Definition local_date_string (tz t : Z) : string :=
  ymd_string (civil_from_days ((t + tz * msPerMinute) / msPerDay)).

(** The same on a device with the time zone [zone]: the calendar date of
    the local time of the instant. *)
Definition local_date_in (zone : TimeZone) (t : Z) : string :=
  ymd_string (civil_from_days (LocalTime zone t / msPerDay)).

(** ** Session state: one field per state cell of the component *)

Record State : Type := mkState {
  loading : bool;
  error : option string;
  workout : option PlanDayWithBlocks;
  currentExerciseIndex : nat;
  isWorkoutStarted : bool;
  isWorkoutCompleted : bool;
  isPaused : bool;
  refreshing : bool;
  workoutTimer : nat;
  exerciseTimer : nat;
  exerciseProgress : list (option ExerciseProgress);
  skippedExercises : list Z;
  showCompleteModal : bool;
  showRestCompleteModal : bool;
  showSkipModal : bool;
  isCompletingExercise : bool;
  isSkippingExercise : bool;
  isRestTimerActive : bool;
  isRestTimerPaused : bool;
  restTimerCountdown : Z;
  isWorkoutInProgress : bool
}.

Definition setLoading (v : bool) (s : State) : State :=
  mkState v (error s) (workout s) (currentExerciseIndex s)
    (isWorkoutStarted s) (isWorkoutCompleted s) (isPaused s) (refreshing s)
    (workoutTimer s) (exerciseTimer s) (exerciseProgress s)
    (skippedExercises s) (showCompleteModal s) (showRestCompleteModal s)
    (showSkipModal s) (isCompletingExercise s) (isSkippingExercise s)
    (isRestTimerActive s) (isRestTimerPaused s) (restTimerCountdown s)
    (isWorkoutInProgress s).
Definition setError (v : option string) (s : State) : State :=
  mkState (loading s) v (workout s) (currentExerciseIndex s)
    (isWorkoutStarted s) (isWorkoutCompleted s) (isPaused s) (refreshing s)
    (workoutTimer s) (exerciseTimer s) (exerciseProgress s)
    (skippedExercises s) (showCompleteModal s) (showRestCompleteModal s)
    (showSkipModal s) (isCompletingExercise s) (isSkippingExercise s)
    (isRestTimerActive s) (isRestTimerPaused s) (restTimerCountdown s)
    (isWorkoutInProgress s).
Definition setWorkout (v : option PlanDayWithBlocks) (s : State) : State :=
  mkState (loading s) (error s) v (currentExerciseIndex s)
    (isWorkoutStarted s) (isWorkoutCompleted s) (isPaused s) (refreshing s)
    (workoutTimer s) (exerciseTimer s) (exerciseProgress s)
    (skippedExercises s) (showCompleteModal s) (showRestCompleteModal s)
    (showSkipModal s) (isCompletingExercise s) (isSkippingExercise s)
    (isRestTimerActive s) (isRestTimerPaused s) (restTimerCountdown s)
    (isWorkoutInProgress s).
Definition setCurrentExerciseIndex (v : nat) (s : State) : State :=
  mkState (loading s) (error s) (workout s) v (isWorkoutStarted s)
    (isWorkoutCompleted s) (isPaused s) (refreshing s) (workoutTimer s)
    (exerciseTimer s) (exerciseProgress s) (skippedExercises s)
    (showCompleteModal s) (showRestCompleteModal s) (showSkipModal s)
    (isCompletingExercise s) (isSkippingExercise s) (isRestTimerActive s)
    (isRestTimerPaused s) (restTimerCountdown s) (isWorkoutInProgress s).
Definition setIsWorkoutStarted (v : bool) (s : State) : State :=
  mkState (loading s) (error s) (workout s) (currentExerciseIndex s) v
    (isWorkoutCompleted s) (isPaused s) (refreshing s) (workoutTimer s)
    (exerciseTimer s) (exerciseProgress s) (skippedExercises s)
    (showCompleteModal s) (showRestCompleteModal s) (showSkipModal s)
    (isCompletingExercise s) (isSkippingExercise s) (isRestTimerActive s)
    (isRestTimerPaused s) (restTimerCountdown s) (isWorkoutInProgress s).
Definition setIsWorkoutCompleted (v : bool) (s : State) : State :=
  mkState (loading s) (error s) (workout s) (currentExerciseIndex s)
    (isWorkoutStarted s) v (isPaused s) (refreshing s) (workoutTimer s)
    (exerciseTimer s) (exerciseProgress s) (skippedExercises s)
    (showCompleteModal s) (showRestCompleteModal s) (showSkipModal s)
    (isCompletingExercise s) (isSkippingExercise s) (isRestTimerActive s)
    (isRestTimerPaused s) (restTimerCountdown s) (isWorkoutInProgress s).
Definition setIsPaused (v : bool) (s : State) : State :=
  mkState (loading s) (error s) (workout s) (currentExerciseIndex s)
    (isWorkoutStarted s) (isWorkoutCompleted s) v (refreshing s)
    (workoutTimer s) (exerciseTimer s) (exerciseProgress s)
    (skippedExercises s) (showCompleteModal s) (showRestCompleteModal s)
    (showSkipModal s) (isCompletingExercise s) (isSkippingExercise s)
    (isRestTimerActive s) (isRestTimerPaused s) (restTimerCountdown s)
    (isWorkoutInProgress s).
Definition setRefreshing (v : bool) (s : State) : State :=
  mkState (loading s) (error s) (workout s) (currentExerciseIndex s)
    (isWorkoutStarted s) (isWorkoutCompleted s) (isPaused s) v
    (workoutTimer s) (exerciseTimer s) (exerciseProgress s)
    (skippedExercises s) (showCompleteModal s) (showRestCompleteModal s)
    (showSkipModal s) (isCompletingExercise s) (isSkippingExercise s)
    (isRestTimerActive s) (isRestTimerPaused s) (restTimerCountdown s)
    (isWorkoutInProgress s).
Definition setWorkoutTimer (v : nat) (s : State) : State :=
  mkState (loading s) (error s) (workout s) (currentExerciseIndex s)
    (isWorkoutStarted s) (isWorkoutCompleted s) (isPaused s) (refreshing s)
    v (exerciseTimer s) (exerciseProgress s) (skippedExercises s)
    (showCompleteModal s) (showRestCompleteModal s) (showSkipModal s)
    (isCompletingExercise s) (isSkippingExercise s) (isRestTimerActive s)
    (isRestTimerPaused s) (restTimerCountdown s) (isWorkoutInProgress s).
Definition setExerciseTimer (v : nat) (s : State) : State :=
  mkState (loading s) (error s) (workout s) (currentExerciseIndex s)
    (isWorkoutStarted s) (isWorkoutCompleted s) (isPaused s) (refreshing s)
    (workoutTimer s) v (exerciseProgress s) (skippedExercises s)
    (showCompleteModal s) (showRestCompleteModal s) (showSkipModal s)
    (isCompletingExercise s) (isSkippingExercise s) (isRestTimerActive s)
    (isRestTimerPaused s) (restTimerCountdown s) (isWorkoutInProgress s).
Definition setExerciseProgress (v : list (option ExerciseProgress)) (s : State) : State :=
  mkState (loading s) (error s) (workout s) (currentExerciseIndex s)
    (isWorkoutStarted s) (isWorkoutCompleted s) (isPaused s) (refreshing s)
    (workoutTimer s) (exerciseTimer s) v (skippedExercises s)
    (showCompleteModal s) (showRestCompleteModal s) (showSkipModal s)
    (isCompletingExercise s) (isSkippingExercise s) (isRestTimerActive s)
    (isRestTimerPaused s) (restTimerCountdown s) (isWorkoutInProgress s).
Definition setSkippedExercises (v : list Z) (s : State) : State :=
  mkState (loading s) (error s) (workout s) (currentExerciseIndex s)
    (isWorkoutStarted s) (isWorkoutCompleted s) (isPaused s) (refreshing s)
    (workoutTimer s) (exerciseTimer s) (exerciseProgress s) v
    (showCompleteModal s) (showRestCompleteModal s) (showSkipModal s)
    (isCompletingExercise s) (isSkippingExercise s) (isRestTimerActive s)
    (isRestTimerPaused s) (restTimerCountdown s) (isWorkoutInProgress s).
Definition setShowCompleteModal (v : bool) (s : State) : State :=
  mkState (loading s) (error s) (workout s) (currentExerciseIndex s)
    (isWorkoutStarted s) (isWorkoutCompleted s) (isPaused s) (refreshing s)
    (workoutTimer s) (exerciseTimer s) (exerciseProgress s)
    (skippedExercises s) v (showRestCompleteModal s) (showSkipModal s)
    (isCompletingExercise s) (isSkippingExercise s) (isRestTimerActive s)
    (isRestTimerPaused s) (restTimerCountdown s) (isWorkoutInProgress s).
Definition setShowRestCompleteModal (v : bool) (s : State) : State :=
  mkState (loading s) (error s) (workout s) (currentExerciseIndex s)
    (isWorkoutStarted s) (isWorkoutCompleted s) (isPaused s) (refreshing s)
    (workoutTimer s) (exerciseTimer s) (exerciseProgress s)
    (skippedExercises s) (showCompleteModal s) v (showSkipModal s)
    (isCompletingExercise s) (isSkippingExercise s) (isRestTimerActive s)
    (isRestTimerPaused s) (restTimerCountdown s) (isWorkoutInProgress s).
Definition setShowSkipModal (v : bool) (s : State) : State :=
  mkState (loading s) (error s) (workout s) (currentExerciseIndex s)
    (isWorkoutStarted s) (isWorkoutCompleted s) (isPaused s) (refreshing s)
    (workoutTimer s) (exerciseTimer s) (exerciseProgress s)
    (skippedExercises s) (showCompleteModal s) (showRestCompleteModal s) v
    (isCompletingExercise s) (isSkippingExercise s) (isRestTimerActive s)
    (isRestTimerPaused s) (restTimerCountdown s) (isWorkoutInProgress s).
Definition setIsCompletingExercise (v : bool) (s : State) : State :=
  mkState (loading s) (error s) (workout s) (currentExerciseIndex s)
    (isWorkoutStarted s) (isWorkoutCompleted s) (isPaused s) (refreshing s)
    (workoutTimer s) (exerciseTimer s) (exerciseProgress s)
    (skippedExercises s) (showCompleteModal s) (showRestCompleteModal s)
    (showSkipModal s) v (isSkippingExercise s) (isRestTimerActive s)
    (isRestTimerPaused s) (restTimerCountdown s) (isWorkoutInProgress s).
Definition setIsSkippingExercise (v : bool) (s : State) : State :=
  mkState (loading s) (error s) (workout s) (currentExerciseIndex s)
    (isWorkoutStarted s) (isWorkoutCompleted s) (isPaused s) (refreshing s)
    (workoutTimer s) (exerciseTimer s) (exerciseProgress s)
    (skippedExercises s) (showCompleteModal s) (showRestCompleteModal s)
    (showSkipModal s) (isCompletingExercise s) v (isRestTimerActive s)
    (isRestTimerPaused s) (restTimerCountdown s) (isWorkoutInProgress s).
Definition setIsRestTimerActive (v : bool) (s : State) : State :=
  mkState (loading s) (error s) (workout s) (currentExerciseIndex s)
    (isWorkoutStarted s) (isWorkoutCompleted s) (isPaused s) (refreshing s)
    (workoutTimer s) (exerciseTimer s) (exerciseProgress s)
    (skippedExercises s) (showCompleteModal s) (showRestCompleteModal s)
    (showSkipModal s) (isCompletingExercise s) (isSkippingExercise s) v
    (isRestTimerPaused s) (restTimerCountdown s) (isWorkoutInProgress s).
Definition setIsRestTimerPaused (v : bool) (s : State) : State :=
  mkState (loading s) (error s) (workout s) (currentExerciseIndex s)
    (isWorkoutStarted s) (isWorkoutCompleted s) (isPaused s) (refreshing s)
    (workoutTimer s) (exerciseTimer s) (exerciseProgress s)
    (skippedExercises s) (showCompleteModal s) (showRestCompleteModal s)
    (showSkipModal s) (isCompletingExercise s) (isSkippingExercise s)
    (isRestTimerActive s) v (restTimerCountdown s) (isWorkoutInProgress s).
Definition setRestTimerCountdown (v : Z) (s : State) : State :=
  mkState (loading s) (error s) (workout s) (currentExerciseIndex s)
    (isWorkoutStarted s) (isWorkoutCompleted s) (isPaused s) (refreshing s)
    (workoutTimer s) (exerciseTimer s) (exerciseProgress s)
    (skippedExercises s) (showCompleteModal s) (showRestCompleteModal s)
    (showSkipModal s) (isCompletingExercise s) (isSkippingExercise s)
    (isRestTimerActive s) (isRestTimerPaused s) v (isWorkoutInProgress s).
Definition setIsWorkoutInProgress (v : bool) (s : State) : State :=
  mkState (loading s) (error s) (workout s) (currentExerciseIndex s)
    (isWorkoutStarted s) (isWorkoutCompleted s) (isPaused s) (refreshing s)
    (workoutTimer s) (exerciseTimer s) (exerciseProgress s)
    (skippedExercises s) (showCompleteModal s) (showRestCompleteModal s)
    (showSkipModal s) (isCompletingExercise s) (isSkippingExercise s)
    (isRestTimerActive s) (isRestTimerPaused s) (restTimerCountdown s) v.

(** ** Observable events *)

Record CreateExerciseLogParams : Type := mkLogParams {
  planDayExerciseId : Z;
  log_sets : list ExerciseSet;
  durationCompleted : option Z;
  log_isComplete : bool;
  timeTaken : nat;
  log_notes : option string
}.

Inductive RemoteCall : Type :=
| FetchActiveWorkout (forceRefresh : bool)
| GetCurrentUser
| CreateExerciseLog (p : CreateExerciseLogParams)
| MarkPlanDayAsComplete (planDayId : Z)
| RefreshDashboard (startDate endDate : string)
| SkipExercise (wid eid : Z).

Inductive Event : Type :=
| Call (c : RemoteCall) (ok : bool)
| Alert (title message : string)
| ScrollToTop.

(** ** The handler monad *)

Inductive Completion (A : Type) : Type :=
| Normal (a : A)
| Returned
| Thrown.
Arguments Normal {A} a.
Arguments Returned {A}.
Arguments Thrown {A}.

Definition Handler (A : Type) : Type :=
  State -> Completion A * State * list Event.

Definition ret {A : Type} (a : A) : Handler A := fun s => (Normal a, s, []).

Definition bind {A B : Type} (m : Handler A) (k : A -> Handler B) : Handler B :=
  fun s =>
    match m s with
    | (Normal a, s1, e1) =>
        let '(c, s2, e2) := k a s1 in (c, s2, e1 ++ e2)
    | (Returned, s1, e1) => (Returned, s1, e1)
    | (Thrown, s1, e1) => (Thrown, s1, e1)
    end.

#[global] Instance Handler_ret : MRet Handler := @ret.
#[global] Instance Handler_bind : MBind Handler :=
  fun A B k m => bind m k.

Definition update (f : State -> State) : Handler unit :=
  fun s => (Normal tt, f s, []).
Definition emit (e : Event) : Handler unit := fun s => (Normal tt, s, [e]).
Definition throw {A : Type} : Handler A := fun s => (Thrown, s, []).
Definition early_return {A : Type} : Handler A := fun s => (Returned, s, []).

(** [await call]: the call is observed with its outcome; a rejected promise
    throws. *)
Definition await (c : RemoteCall) (ok : bool) : Handler unit :=
  emit (Call c ok) ;; if ok then ret tt else throw.

Definition when (b : bool) (m : Handler unit) : Handler unit :=
  if b then m else ret tt.

(** [try { body } catch { handler } finally { fin }]. *)
Definition try_catch_finally (body handler fin : Handler unit) : Handler unit :=
  fun s =>
    let '(c1, s1, e1) := body s in
    let '(c2, s2, e2) :=
      match c1 with
      | Thrown => handler s1
      | _ => (c1, s1, [])
      end in
    let '(c3, s3, e3) := fin s2 in
    (match c3 with Normal _ => c2 | _ => c3 end, s3, e1 ++ e2 ++ e3).

(** Running a handler: the state it leaves and the events it produced. *)
Definition run (m : Handler unit) (s : State) : State * list Event :=
  let '(_, s', e) := m s in (s', e).

(** ** Values derived at render time *)

Definition getFlattenedExercises (s : State) : list WorkoutBlockWithExercise :=
  match workout s with
  | None => []
  | Some w => flat_map exercises_of_block (blocks w)
  end.

Definition exercises := getFlattenedExercises.

Definition currentExercise (s : State) : option WorkoutBlockWithExercise :=
  exercises s !! currentExerciseIndex s.

Definition currentProgress (s : State) : option ExerciseProgress :=
  js_get (exerciseProgress s) (currentExerciseIndex s).

Definition completedAndSkippedCount (s : State) : nat :=
  (currentExerciseIndex s + length (skippedExercises s))%nat.

(** The quotient is a JavaScript double in the source; it is the exact
    rational here. *)
Definition progressPercent (s : State) : Q :=
  if (0 <? length (exercises s))%nat
  then (inject_Z (Z.of_nat (completedAndSkippedCount s))
        / inject_Z (Z.of_nat (length (exercises s)))) * 100
  else 0.

Definition initial_state : State :=
  mkState true None None 0%nat false false false false 0%nat 0%nat [] []
    false false false false false false false 0 false.

(** ** The environment of one asynchronous handler *)

Inductive UserResult : Type :=
| UserRejected   (* getCurrentUser() rejects *)
| UserNull       (* it resolves to null *)
| UserSignedIn.

Record Env : Type := mkEnv {
  env_user : UserResult;
  env_createLog : bool;      (* createExerciseLog resolves *)
  env_markComplete : bool;   (* markPlanDayAsComplete resolves *)
  env_refresh : bool;        (* refreshDashboard resolves *)
  env_skip : bool;           (* skipExercise resolves *)
  env_now : Z;               (* new Date(), milliseconds since the epoch *)
  env_zone : TimeZone        (* the time zone of the device *)
}.

Inductive FetchResult : Type :=
| FetchRejected
| FetchResolved (planDays : option (list PlanDayWithBlocks)).

(** ** loadWorkout *)

Definition initialProgress (exercise : WorkoutBlockWithExercise)
  : ExerciseProgress :=
  {| setsCompleted := Some 0;
     repsCompleted := Some 0;
     roundsCompleted := Some 0;
     weightUsed := Some (or_zero (ex_weight exercise));
     sets := Some [];
     duration := Some (or_zero (ex_duration exercise));
     restTime := Some (or_zero (ex_restTime exercise));
     notes := Some "";
     isSkipped := None |}.

(** [planDays.find(day => formatDateAsString(day.date) === today)]; the
    normalising helper is a parameter, the comparison is on strings. *)
Definition findTodaysWorkout (formatDateAsString : string -> string)
    (today : string) (planDays : list PlanDayWithBlocks)
  : option PlanDayWithBlocks :=
  List.find (fun day => String.eqb (formatDateAsString (day_date day)) today)
    planDays.

Definition loadWorkout (formatDateAsString : string -> string)
    (today : string) (response : FetchResult) (forceRefresh : bool)
  : Handler unit :=
  try_catch_finally
    (when (negb forceRefresh) (update (setLoading true)) ;;
     update (setError None) ;;
     planDays ← (match response with
                 | FetchRejected =>
                     emit (Call (FetchActiveWorkout forceRefresh) false) ;;
                     throw
                 | FetchResolved r =>
                     emit (Call (FetchActiveWorkout forceRefresh) true) ;;
                     ret r
                 end) ;
     match planDays with
     | None | Some [] => update (setWorkout None) ;; early_return
     | Some days =>
         match findTodaysWorkout formatDateAsString today days with
         | None => update (setWorkout None) ;; early_return
         | Some todaysWorkout =>
             if isComplete todaysWorkout then
               update (setWorkout (Some todaysWorkout)) ;;
               update (setIsWorkoutCompleted true) ;;
               update (setIsWorkoutInProgress false) ;;
               early_return
             else
               update (setWorkout (Some todaysWorkout)) ;;
               update (setExerciseProgress
                         (map (fun e => Some (initialProgress e))
                            (flat_map exercises_of_block
                               (blocks todaysWorkout))))
         end
     end)
    (update (setError (Some "Failed to load workout. Please try again.")))
    (update (setLoading false) ;;
     when forceRefresh (update (setRefreshing false))).

(** Pull to refresh. *)
Definition onRefresh (formatDateAsString : string -> string)
    (today : string) (response : FetchResult) : Handler unit :=
  update (setRefreshing true) ;;
  loadWorkout formatDateAsString today response true.

(** ** updateProgress *)

(** A field of the progress record together with the value written to it. *)
Inductive ProgressUpdate : Type :=
| UpdSetsCompleted (v : Z)
| UpdRepsCompleted (v : Z)
| UpdRoundsCompleted (v : Z)
| UpdWeightUsed (v : Z)
| UpdSets (v : list ExerciseSet)
| UpdDuration (v : Z)
| UpdRestTime (v : Z)
| UpdNotes (v : string).

Inductive ProgressField : Type :=
| FSetsCompleted | FRepsCompleted | FRoundsCompleted | FWeightUsed
| FSets | FDuration | FRestTime | FNotes | FIsSkipped.

Definition field_of (u : ProgressUpdate) : ProgressField :=
  match u with
  | UpdSetsCompleted _ => FSetsCompleted
  | UpdRepsCompleted _ => FRepsCompleted
  | UpdRoundsCompleted _ => FRoundsCompleted
  | UpdWeightUsed _ => FWeightUsed
  | UpdSets _ => FSets
  | UpdDuration _ => FDuration
  | UpdRestTime _ => FRestTime
  | UpdNotes _ => FNotes
  end.

(** The value of a property of a progress object. *)
Inductive PropertyValue : Type :=
| PNumber (v : option Z)
| PSets (v : option (list ExerciseSet))
| PString (v : option string)
| PBoolean (v : option bool).

Definition property (f : ProgressField) (p : ExerciseProgress)
  : PropertyValue :=
  match f with
  | FSetsCompleted => PNumber (setsCompleted p)
  | FRepsCompleted => PNumber (repsCompleted p)
  | FRoundsCompleted => PNumber (roundsCompleted p)
  | FWeightUsed => PNumber (weightUsed p)
  | FSets => PSets (sets p)
  | FDuration => PNumber (duration p)
  | FRestTime => PNumber (restTime p)
  | FNotes => PString (notes p)
  | FIsSkipped => PBoolean (isSkipped p)
  end.

Definition written_value (u : ProgressUpdate) : PropertyValue :=
  match u with
  | UpdSetsCompleted v | UpdRepsCompleted v | UpdRoundsCompleted v
  | UpdWeightUsed v | UpdDuration v | UpdRestTime v => PNumber (Some v)
  | UpdSets v => PSets (Some v)
  | UpdNotes v => PString (Some v)
  end.

(** A property that the object does not have (it reads as [undefined]). *)
Definition is_absent (v : PropertyValue) : Prop :=
  match v with
  | PNumber None | PSets None | PString None | PBoolean None => True
  | _ => False
  end.

(** [{ ...p, [field]: value }]. *)
Definition assign (u : ProgressUpdate) (p : ExerciseProgress)
  : ExerciseProgress :=
  match u with
  | UpdSetsCompleted v =>
      mkProgress (Some v) (repsCompleted p) (roundsCompleted p) (weightUsed p)
        (sets p) (duration p) (restTime p) (notes p) (isSkipped p)
  | UpdRepsCompleted v =>
      mkProgress (setsCompleted p) (Some v) (roundsCompleted p) (weightUsed p)
        (sets p) (duration p) (restTime p) (notes p) (isSkipped p)
  | UpdRoundsCompleted v =>
      mkProgress (setsCompleted p) (repsCompleted p) (Some v) (weightUsed p)
        (sets p) (duration p) (restTime p) (notes p) (isSkipped p)
  | UpdWeightUsed v =>
      mkProgress (setsCompleted p) (repsCompleted p) (roundsCompleted p)
        (Some v) (sets p) (duration p) (restTime p) (notes p) (isSkipped p)
  | UpdSets v =>
      mkProgress (setsCompleted p) (repsCompleted p) (roundsCompleted p)
        (weightUsed p) (Some v) (duration p) (restTime p) (notes p)
        (isSkipped p)
  | UpdDuration v =>
      mkProgress (setsCompleted p) (repsCompleted p) (roundsCompleted p)
        (weightUsed p) (sets p) (Some v) (restTime p) (notes p) (isSkipped p)
  | UpdRestTime v =>
      mkProgress (setsCompleted p) (repsCompleted p) (roundsCompleted p)
        (weightUsed p) (sets p) (duration p) (Some v) (notes p) (isSkipped p)
  | UpdNotes v =>
      mkProgress (setsCompleted p) (repsCompleted p) (roundsCompleted p)
        (weightUsed p) (sets p) (duration p) (restTime p) (Some v)
        (isSkipped p)
  end.

(** [{ ...p, isSkipped: true }]. *)
Definition markSkipped (p : ExerciseProgress) : ExerciseProgress :=
  mkProgress (setsCompleted p) (repsCompleted p) (roundsCompleted p)
    (weightUsed p) (sets p) (duration p) (restTime p) (notes p) (Some true).

(** Spreading [undefined] gives the empty object. *)
Definition spread (o : option ExerciseProgress) : ExerciseProgress :=
  match o with Some p => p | None => empty_object end.

(** The updater passed to [setExerciseProgress]: copy the array and
    replace the entry at the captured cursor. *)
Definition replaceAt (i : nat) (f : ExerciseProgress -> ExerciseProgress)
    (prev : list (option ExerciseProgress))
  : list (option ExerciseProgress) :=
  js_set prev i (f (spread (js_get prev i))).

Definition updateProgress (u : ProgressUpdate) (r : State) : Handler unit :=
  update (fun s =>
    setExerciseProgress
      (replaceAt (currentExerciseIndex r) (assign u) (exerciseProgress s)) s).

(** ** Starting, pausing, rest timer *)

Definition startWorkout : Handler unit :=
  update (setIsWorkoutStarted true) ;;
  update (setWorkoutTimer 0%nat) ;;
  update (setExerciseTimer 0%nat) ;;
  update (setIsWorkoutInProgress true).

Definition togglePause (r : State) : Handler unit :=
  update (setIsPaused (negb (isPaused r))).

Definition targetRestTime (r : State) : Z :=
  match currentExercise r with
  | Some e => or_zero (ex_restTime e)
  | None => 0
  end.

Definition startRestTimer (r : State) : Handler unit :=
  let restTime := targetRestTime r in
  when (restTime >? 0)
    (update (setRestTimerCountdown restTime) ;;
     update (setIsRestTimerActive true) ;;
     update (setIsRestTimerPaused false)).

Definition toggleRestTimerPause (r : State) : Handler unit :=
  update (setIsRestTimerPaused (negb (isRestTimerPaused r))).

Definition resetRestTimer (r : State) : Handler unit :=
  update (setRestTimerCountdown (targetRestTime r)) ;;
  update (setIsRestTimerPaused false).

Definition cancelRestTimer : Handler unit :=
  update (setIsRestTimerActive false) ;;
  update (setIsRestTimerPaused false) ;;
  update (setRestTimerCountdown 0).

(** ** completeExercise *)

Definition errorAlert_complete : Event :=
  Alert "Error" "Failed to complete exercise. Please try again.".

Definition noSetsAlert : Event :=
  Alert "No Sets Logged"
    "Please click 'Add Set' and log your weights and reps before completing this exercise.".

Definition workoutCompleteAlert : Event :=
  Alert "Workout Complete!"
    "Congratulations! You've completed today's workout.".

(** [currentExerciseIndex < exercises.length - 1], on integers: the right
    side is -1 for an empty list. *)
Definition beforeLast (r : State) : bool :=
  Z.of_nat (currentExerciseIndex r) <? Z.of_nat (length (exercises r)) - 1.

Definition moveToNextExercise : Handler unit :=
  update (fun s => setCurrentExerciseIndex (S (currentExerciseIndex s)) s) ;;
  update (setExerciseTimer 0%nat) ;;
  emit ScrollToTop.

Definition getCurrentUser (env : Env) : Handler unit :=
  match env_user env with
  | UserRejected => await GetCurrentUser false
  | UserNull => await GetCurrentUser true ;; throw
  | UserSignedIn => await GetCurrentUser true
  end.

(** The date range sent to the dashboard refresh: thirty days back and seven
    days forward from now, each as [toISOString().split("T")[0]]. *)
Definition refreshRange (env : Env) : RemoteCall :=
  let today := env_now env in
  let startDate := setDate_relative (env_zone env) today (-30) in
  let endDate := setDate_relative (env_zone env) today 7 in
  RefreshDashboard (toISOString_date startDate) (toISOString_date endDate).

Definition completeExercise (env : Env) (r : State) : Handler unit :=
  match currentExercise r, currentProgress r with
  | Some exercise, Some progress =>
      update (setIsCompletingExercise true) ;;
      try_catch_finally
        (getCurrentUser env ;;
         loggedSets ← (match sets progress with
                       | None | Some [] => emit noSetsAlert ;; early_return
                       | Some l => ret l
                       end) ;
         await (CreateExerciseLog
                  {| planDayExerciseId := ex_id exercise;
                     log_sets := loggedSets;
                     durationCompleted := duration progress;
                     log_isComplete := true;
                     timeTaken := exerciseTimer r;
                     log_notes := notes progress |})
               (env_createLog env) ;;
         (if beforeLast r then moveToNextExercise
          else
            (match workout r with
             | Some w =>
                 when (truthy (day_id w))
                   (await (MarkPlanDayAsComplete (day_id w))
                          (env_markComplete env) ;;
                    await (refreshRange env) (env_refresh env))
             | None => ret tt
             end) ;;
            update (setCurrentExerciseIndex (length (exercises r))) ;;
            update (setIsWorkoutCompleted true) ;;
            update (setIsWorkoutInProgress false) ;;
            emit workoutCompleteAlert) ;;
         update (setShowCompleteModal false))
        (emit errorAlert_complete)
        (update (setIsCompletingExercise false))
  | _, _ => early_return
  end.

(** ** skipCurrentExercise *)

Definition errorAlert_skip : Event :=
  Alert "Error" "Failed to skip exercise. Please try again.".

Definition workoutFinishedAlert : Event :=
  Alert "Workout Complete!" "You've finished today's workout.".

Definition includes (l : list Z) (x : Z) : bool := existsb (Z.eqb x) l.

(** [exercises.every((ex, index) => index < cursor ||
    skipped.includes(ex.id) || index === cursor)]. *)
Definition allProcessed (r : State) : bool :=
  forallb (fun b : bool => b)
    (imap (fun index ex =>
             (index <? currentExerciseIndex r)%nat
             || includes (skippedExercises r) (ex_id ex)
             || (index =? currentExerciseIndex r)%nat)
          (exercises r)).

Definition skipCurrentExercise (env : Env) (r : State) : Handler unit :=
  match currentExercise r, workout r with
  | Some exercise, Some w =>
      update (setIsSkippingExercise true) ;;
      try_catch_finally
        (await (SkipExercise (workoutId w) (ex_id exercise)) (env_skip env) ;;
         update (fun s =>
           setSkippedExercises (skippedExercises s ++ [ex_id exercise]) s) ;;
         update (fun s =>
           setExerciseProgress
             (replaceAt (currentExerciseIndex r) markSkipped
                (exerciseProgress s)) s) ;;
         (if beforeLast r then moveToNextExercise
          else
            when (allProcessed r && truthy (day_id w))
              (await (MarkPlanDayAsComplete (day_id w))
                     (env_markComplete env) ;;
               update (setCurrentExerciseIndex (length (exercises r))) ;;
               update (setIsWorkoutCompleted true) ;;
               update (setIsWorkoutInProgress false) ;;
               emit workoutFinishedAlert)) ;;
         update (setShowSkipModal false))
        (emit errorAlert_skip)
        (update (setIsSkippingExercise false))
  | _, _ => early_return
  end.

(** ** Interval callbacks *)

(** The workout clock exists while the workout is started, not paused and
    not completed; one tick increments both counters. *)
Definition clockRunning (s : State) : bool :=
  isWorkoutStarted s && negb (isPaused s) && negb (isWorkoutCompleted s).

Definition workoutTick (s : State) : State :=
  if clockRunning s
  then setExerciseTimer (S (exerciseTimer s))
         (setWorkoutTimer (S (workoutTimer s)) s)
  else s.

(** The rest interval exists while the timer is active, not paused and the
    countdown is positive; one tick runs the updater of the countdown. *)
Definition restRunning (s : State) : bool :=
  isRestTimerActive s && negb (isRestTimerPaused s)
  && (restTimerCountdown s >? 0).

Definition restTick (s : State) : State :=
  if restRunning s then
    if restTimerCountdown s <=? 1 then
      setRestTimerCountdown 0
        (setShowRestCompleteModal true
           (setIsRestTimerPaused false (setIsRestTimerActive false s)))
    else setRestTimerCountdown (restTimerCountdown s - 1) s
  else s.

(** ** Effects *)

(** Context synchronisation; it runs when the started or the completed flag
    has changed. *)
Definition syncContext (prev s : State) : State :=
  if Bool.eqb (isWorkoutStarted prev) (isWorkoutStarted s)
     && Bool.eqb (isWorkoutCompleted prev) (isWorkoutCompleted s)
  then s
  else setIsWorkoutInProgress
         (if isWorkoutCompleted s then false
          else if isWorkoutStarted s then true else false) s.

Definition abandoned (s : State) : bool :=
  negb (isWorkoutInProgress s) && isWorkoutStarted s
  && negb (isWorkoutCompleted s).

Definition resetAbandoned (s : State) : State :=
  setRestTimerCountdown 0
    (setIsRestTimerPaused false
       (setIsRestTimerActive false
          (setCurrentExerciseIndex 0%nat
             (setExerciseTimer 0%nat
                (setWorkoutTimer 0%nat
                   (setIsPaused false (setIsWorkoutStarted false s))))))).

(** Workout abandonment: the context says no workout is in progress while
    the screen thinks one is started. The condition is read from the
    rendered state, the reset is applied to the pending one. *)
Definition abandonmentEffect (rendered pending : State) : State :=
  if abandoned rendered then resetAbandoned pending else pending.

(** The effects after a handler that took the rendered state [prev] to [s]:
    both effects of the render of [s], then the synchronisation of the
    render that they cause. *)
Definition settle (prev s : State) : State :=
  let s1 := abandonmentEffect s (syncContext prev s) in
  syncContext s s1.

(** ** What is on screen *)

Inductive Screen : Type :=
| LoadingScreen | ErrorScreen | NoWorkoutScreen | CompletedScreen
| WorkoutInterface.

Definition render (s : State) : Screen :=
  if loading s then LoadingScreen
  else match error s with
       | Some _ => ErrorScreen
       | None =>
           match workout s with
           | None => NoWorkoutScreen
           | Some _ =>
               if isWorkoutCompleted s then CompletedScreen
               else WorkoutInterface
           end
       end.

(** ** Operations of the controller *)

Inductive Op : Type :=
| OpLoad (today : string) (response : FetchResult) (forceRefresh : bool)
| OpRefresh (today : string) (response : FetchResult)
| OpStart
| OpTogglePause
| OpUpdateProgress (u : ProgressUpdate)
| OpComplete (env : Env)
| OpSkip (env : Env)
| OpStartRest
| OpToggleRestPause
| OpResetRest
| OpCancelRest
| OpTick
| OpRestTick
| OpShowCompleteModal (visible : bool)
| OpShowSkipModal (visible : bool)
| OpCloseRestComplete (thenComplete : bool)
| OpContext (inProgress : bool).

(** The handler of an operation, before the effects. *)
Definition handle (formatDateAsString : string -> string) (op : Op)
    (r : State) : State * list Event :=
  match op with
  | OpLoad today response forceRefresh =>
      run (loadWorkout formatDateAsString today response forceRefresh) r
  | OpRefresh today response =>
      run (onRefresh formatDateAsString today response) r
  | OpStart => run startWorkout r
  | OpTogglePause => run (togglePause r) r
  | OpUpdateProgress u => run (updateProgress u r) r
  | OpComplete env => run (completeExercise env r) r
  | OpSkip env => run (skipCurrentExercise env r) r
  | OpStartRest => run (startRestTimer r) r
  | OpToggleRestPause => run (toggleRestTimerPause r) r
  | OpResetRest => run (resetRestTimer r) r
  | OpCancelRest => run cancelRestTimer r
  | OpTick => (workoutTick r, [])
  | OpRestTick => (restTick r, [])
  | OpShowCompleteModal visible => (setShowCompleteModal visible r, [])
  | OpShowSkipModal visible => (setShowSkipModal visible r, [])
  | OpCloseRestComplete thenComplete =>
      (let s := setShowRestCompleteModal false r in
       if thenComplete then setShowCompleteModal true s else s, [])
  | OpContext inProgress => (setIsWorkoutInProgress inProgress r, [])
  end.

Definition step (formatDateAsString : string -> string) (op : Op)
    (r : State) : State * list Event :=
  let '(s, events) := handle formatDateAsString op r in
  (settle r s, events).

Fixpoint steps (formatDateAsString : string -> string) (ops : list Op)
    (r : State) : State * list Event :=
  match ops with
  | [] => (r, [])
  | op :: rest =>
      let '(s, e1) := step formatDateAsString op r in
      let '(s', e2) := steps formatDateAsString rest s in
      (s', e1 ++ e2)
  end.

(** *** Sessions over one plan day

    The server keeps answering with the same plan day [d]: a load either
    fails, finds no workout for today, or finds a day with the identifiers
    and the blocks of [d] (its date and completion flag are the
    server's). *)

Definition same_plan (d w : PlanDayWithBlocks) : Prop :=
  day_id w = day_id d /\ workoutId w = workoutId d /\ blocks w = blocks d.

Definition serves (d : PlanDayWithBlocks)
    (formatDateAsString : string -> string) (today : string)
    (response : FetchResult) : Prop :=
  match response with
  | FetchResolved (Some days) =>
      match findTodaysWorkout formatDateAsString today days with
      | Some w => same_plan d w
      | None => True
      end
  | _ => True
  end.

Definition admissible (d : PlanDayWithBlocks)
    (formatDateAsString : string -> string) (op : Op) : Prop :=
  match op with
  | OpLoad today response _ => serves d formatDateAsString today response
  | OpRefresh today response => serves d formatDateAsString today response
  | _ => True
  end.

Inductive reachable (d : PlanDayWithBlocks)
    (formatDateAsString : string -> string) : State -> Prop :=
| reach_initial : reachable d formatDateAsString initial_state
| reach_step (s : State) (op : Op) :
    reachable d formatDateAsString s ->
    admissible d formatDateAsString op ->
    reachable d formatDateAsString (fst (step formatDateAsString op s)).

Definition exerciseCount (d : PlanDayWithBlocks) : nat :=
  length (flat_map exercises_of_block (blocks d)).

(** A valid plan day has at least one exercise. *)
Definition valid_plan (d : PlanDayWithBlocks) : Prop :=
  (0 < exerciseCount d)%nat.

(** ** completeExercise and skipCurrentExercise, path by path *)

Ltac monad_red :=
  cbv beta iota zeta delta
    [run completeExercise skipCurrentExercise getCurrentUser
     moveToNextExercise await when try_catch_finally early_return
     throw emit update mbind mret Handler_bind Handler_ret bind ret
     fst snd app andb];
  cbn [env_user env_createLog env_markComplete env_refresh env_skip
       env_now env_zone].

(** Every path of [completeExercise]: the guards, the user, the logged
    sets, the outcome of each request, the position of the cursor. *)
Ltac complete_paths env r :=
  let u := fresh "u" in let cl := fresh "cl" in let mk := fresh "mk" in
  let rf := fresh "rf" in let sk := fresh "sk" in
  let now := fresh "now" in let tz := fresh "tz" in
  let ex := fresh "ex" in let pr := fresh "pr" in let w := fresh "w" in
  let st := fresh "st" in let l := fresh "l" in
  destruct env as [u cl mk rf sk now tz];
  unfold completeExercise;
  destruct (currentExercise r) as [ex|] eqn:Hex;
  [ destruct (currentProgress r) as [pr|] eqn:Hpr;
    [ destruct u; destruct (sets pr) as [[|st l]|] eqn:Hsets;
      destruct cl; destruct (beforeLast r) eqn:Hbl;
      (destruct (workout r) as [w|] eqn:Hw;
       [ destruct (truthy (day_id w)) eqn:Hid; destruct mk, rf | ])
    | ]
  | ];
  monad_red.

(** Every path of [skipCurrentExercise]. *)
Ltac skip_paths env r :=
  let u := fresh "u" in let cl := fresh "cl" in let mk := fresh "mk" in
  let rf := fresh "rf" in let sk := fresh "sk" in
  let now := fresh "now" in let tz := fresh "tz" in
  let ex := fresh "ex" in let w := fresh "w" in
  destruct env as [u cl mk rf sk now tz];
  unfold skipCurrentExercise;
  destruct (currentExercise r) as [ex|] eqn:Hex;
  [ destruct (workout r) as [w|] eqn:Hw;
    [ destruct sk; destruct (beforeLast r) eqn:Hbl;
      destruct (allProcessed r) eqn:Hall;
      destruct (truthy (day_id w)) eqn:Hid; destruct mk
    | ]
  | ];
  monad_red.

(** How a handler moves the cursor: not at all, to the next exercise, or to
    the end together with the completed flag. *)
Inductive advance (r h : State) : Prop :=
| adv_stay :
    currentExerciseIndex h = currentExerciseIndex r ->
    isWorkoutCompleted h = isWorkoutCompleted r ->
    isWorkoutInProgress h = isWorkoutInProgress r ->
    advance r h
| adv_next :
    beforeLast r = true ->
    currentExerciseIndex h = S (currentExerciseIndex r) ->
    isWorkoutCompleted h = isWorkoutCompleted r ->
    isWorkoutInProgress h = isWorkoutInProgress r ->
    advance r h
| adv_finish :
    beforeLast r = false ->
    is_Some (currentExercise r) ->
    currentExerciseIndex h = length (exercises r) ->
    isWorkoutCompleted h = true ->
    isWorkoutInProgress h = false ->
    advance r h.

Ltac advance_premise :=
  first [reflexivity | eassumption | eexists; eassumption].

Ltac solve_advance :=
  first
    [ apply adv_stay; advance_premise
    | apply adv_next; advance_premise
    | apply adv_finish; advance_premise ].

(** The cells that neither handler touches. *)
Definition same_session_frame (r h : State) : Prop :=
  workout h = workout r
  /\ isWorkoutStarted h = isWorkoutStarted r
  /\ isPaused h = isPaused r
  /\ workoutTimer h = workoutTimer r
  /\ loading h = loading r
  /\ error h = error r
  /\ refreshing h = refreshing r
  /\ showRestCompleteModal h = showRestCompleteModal r.

Definition same_rest_timer (r h : State) : Prop :=
  isRestTimerActive h = isRestTimerActive r
  /\ isRestTimerPaused h = isRestTimerPaused r
  /\ restTimerCountdown h = restTimerCountdown r.


(** Admissibility of a concrete list of operations. *)
Ltac scenario_admissible :=
  repeat (constructor; [first [exact I | vm_compute; tauto]|]);
  constructor.

(** ** A sample session

    A plan day with two blocks of one exercise each, used to run the
    controller on concrete inputs. *)

Module Scenario.

Definition squat : WorkoutBlockWithExercise :=
  mkExercise 11 "Squat" (Some 2) (Some 10) (Some 50) None (Some 30).

Definition plank : WorkoutBlockWithExercise :=
  mkExercise 12 "Plank" (Some 2) None None (Some 60) None.

Definition day : PlanDayWithBlocks :=
  mkDay 7 3 "2024-03-09" false
    [mkBlock 1 "Strength" None [squat]; mkBlock 2 "Core" (Some 2) [plank]].

(** The same day stored under the identifier 0. *)
Definition day_without_id : PlanDayWithBlocks :=
  mkDay 0 3 "2024-03-09" false (blocks day).

(** The server already sends normalised dates. *)
Definition formatDateAsString (date : string) : string := date.

Definition today : string := "2024-03-09".

(** 2024-03-10T01:00:00Z, which is 17:00 on 2024-03-09 on a device eight
    hours west of UTC. *)
Definition now : Z := 1710032400000.
Definition tz : Z := -480.
Definition zone : TimeZone := fixed_zone tz.

(** A device one hour east of UTC that moves its clocks forward to two
    hours east at 2024-03-31T01:00:00Z (02:00 local time). *)
Definition spring_forward : Z := 1711846800000.
Definition daylight_zone : TimeZone :=
  mkZone
    (fun t => if t <? spring_forward then 3600000 else 7200000)
    (fun tlocal =>
       if tlocal <? spring_forward + 3600000 then 3600000 else 7200000).

Definition online : Env := mkEnv UserSignedIn true true true true now zone.
Definition signed_out : Env := mkEnv UserNull true true true true now zone.
Definition refresh_down : Env :=
  mkEnv UserSignedIn true true false true now zone.

Definition load (d : PlanDayWithBlocks) : Op :=
  OpLoad today (FetchResolved (Some [d])) false.

Definition one_set : list ExerciseSet := [mkSet 10 50 true].

Definition run_ops (ops : list Op) : State :=
  fst (steps formatDateAsString ops initial_state).

(** Loaded and started, nothing logged yet. *)
Definition fresh : State := run_ops [load day; OpStart].

(** One set logged on the first exercise, rest timer started and one
    second into the countdown. *)
Definition resting : State :=
  run_ops [load day; OpStart; OpTick; OpUpdateProgress (UpdSets one_set);
           OpStartRest; OpRestTick].

(** The first exercise completed, one set logged on the second. *)
Definition on_last : State :=
  run_ops [load day; OpStart; OpUpdateProgress (UpdSets one_set);
           OpComplete online; OpUpdateProgress (UpdSets one_set)].

Definition on_last_without_id : State :=
  run_ops [load day_without_id; OpStart;
           OpUpdateProgress (UpdSets one_set); OpComplete online].

End Scenario.

(** The day-completion requests among the events. *)
Definition isDayCompletion (e : Event) : bool :=
  match e with
  | Call (MarkPlanDayAsComplete _) _ => true
  | _ => false
  end.

Definition dayCompletionRequests (events : list Event) : nat :=
  length (List.filter isDayCompletion events).

(** ** Summaries of handlers and the session invariant *)

(** What a handler can do to the cursor. *)
Inductive cursor_move (r h : State) : Prop :=
| move_none :
    currentExerciseIndex h = currentExerciseIndex r -> cursor_move r h
| move_next :
    beforeLast r = true ->
    currentExerciseIndex h = S (currentExerciseIndex r) ->
    cursor_move r h
| move_end :
    is_Some (currentExercise r) ->
    currentExerciseIndex h = length (exercises r) ->
    isWorkoutCompleted h = true ->
    cursor_move r h.

Ltac load_red :=
  cbv beta iota zeta delta
    [run when try_catch_finally early_return throw emit update mbind mret
     Handler_bind Handler_ret bind ret fst snd app negb].

Ltac load_paths response forceRefresh :=
  let d0 := fresh "d0" in let days := fresh "days" in
  let w := fresh "w" in
  unfold onRefresh, loadWorkout;
  destruct response as [|[[|d0 days]|]];
  try destruct forceRefresh;
  load_red;
  try (match goal with
       | |- context [findTodaysWorkout ?f ?t (?x :: ?l)] =>
           destruct (findTodaysWorkout f t (x :: l)) as [w|] eqn:Hfind;
           [destruct (isComplete w) eqn:Hdone|]
       end;
       load_red).

(** One handler, seen from the cursor, the completed flag, the abandoned
    condition and the loaded plan day. *)
Definition handler_summary (d : PlanDayWithBlocks) (op : Op)
    (r h : State) : Prop :=
  cursor_move r h
  /\ (isWorkoutCompleted r = true -> isWorkoutCompleted h = true)
  /\ (abandoned r = false -> abandoned h = true ->
      op = OpContext false /\ isWorkoutStarted r = true)
  /\ (workout h = workout r \/ workout h = None
      \/ exists w, workout h = Some w /\ same_plan d w).

Ltac simple_handler :=
  unfold togglePause, toggleRestTimerPause, resetRestTimer, cancelRestTimer,
    updateProgress;
  load_red;
  split; [apply move_none; reflexivity|];
  split; [intros H; exact H|];
  split; [intros H1 H2; unfold abandoned in *; cbn in *; congruence|];
  left; reflexivity.

(** The invariant of a session over the plan day [d]. *)
Definition session_invariant (d : PlanDayWithBlocks) (s : State) : Prop :=
  (forall w, workout s = Some w -> blocks w = blocks d)
  /\ (currentExerciseIndex s <= exerciseCount d)%nat
  /\ (currentExerciseIndex s = exerciseCount d ->
      isWorkoutCompleted s = true)
  /\ abandoned s = false.

(** A handler run that finishes the day: one day-completion request, the
    completed flag set, the cursor at the end; from then on both handlers
    return at once, without any event and without any change, and the
    completed screen is what is shown. *)
Definition finishes_day (result : State * list Event) : Prop :=
  let s' := fst result in
  dayCompletionRequests (snd result) = 1%nat
  /\ isWorkoutCompleted s' = true
  /\ currentExerciseIndex s' = length (exercises s')
  /\ (forall env', run (completeExercise env' s') s' = (s', []))
  /\ (forall env', run (skipCurrentExercise env' s') s' = (s', []))
  /\ (loading s' = false -> error s' = None -> render s' = CompletedScreen).

(** ** Display helpers and the workout overview *)

Fixpoint repeat_char (n : nat) (c : ascii) : string :=
  match n with
  | O => EmptyString
  | S n' => String c (repeat_char n' c)
  end.

(** [s.padStart(targetLength, c)] with a one-character pad string. *)
Definition padStart (targetLength : nat) (c : ascii) (s : string) : string :=
  String.append (repeat_char (targetLength - String.length s)%nat c) s.

(** [formatTime]: minutes, a colon, and the seconds padded to two
    characters. [Math.floor(seconds / 60)] is the floor quotient and [%] the
    remainder with the sign of the dividend; the numbers are printed in
    decimal. *)
Definition formatTime (seconds : Z) : string :=
  let mins := seconds / 60 in
  let secs := Z.rem seconds 60 in
  String.append (pretty mins)
    (String.append ":" (padStart 2 "0"%char (pretty secs))).

(** [getCurrentBlock]: the first block that has an exercise with the id of
    the current exercise. *)
Definition getCurrentBlock (s : State) : option WorkoutBlockWithExercises :=
  match workout s, currentExercise s with
  | Some w, Some current =>
      List.find
        (fun block =>
           existsb (fun ex => ex_id ex =? ex_id current)
             (exercises_of_block block))
        (blocks w)
  | _, _ => None
  end.

(** [Array.prototype.findIndex]: the first index whose element satisfies
    the predicate, -1 when there is none. *)
Fixpoint findIndex_from {A : Type} (p : A -> bool) (l : list A) (i : Z) : Z :=
  match l with
  | [] => -1
  | x :: l' => if p x then i else findIndex_from p l' (i + 1)
  end.

Definition findIndex {A : Type} (p : A -> bool) (l : list A) : Z :=
  findIndex_from p l 0.

(** One row of the overview of today's plan. *)
Definition globalIndex (s : State) (exercise : WorkoutBlockWithExercise) : Z :=
  findIndex (fun ex => ex_id ex =? ex_id exercise) (exercises s).

Definition rowIsCompleted (s : State) (exercise : WorkoutBlockWithExercise)
  : bool :=
  globalIndex s exercise <? Z.of_nat (currentExerciseIndex s).

Definition rowIsCurrent (s : State) (exercise : WorkoutBlockWithExercise)
  : bool :=
  globalIndex s exercise =? Z.of_nat (currentExerciseIndex s).

Definition rowIsSkipped (s : State) (exercise : WorkoutBlockWithExercise)
  : bool :=
  includes (skippedExercises s) (ex_id exercise).

Inductive RowIcon : Type :=
| SkipIcon
| CheckIcon
| PlayIcon
| NumberLabel (n : Z).

Definition rowIcon (s : State) (exercise : WorkoutBlockWithExercise)
  : RowIcon :=
  if rowIsSkipped s exercise then SkipIcon
  else if rowIsCompleted s exercise then CheckIcon
  else if rowIsCurrent s exercise then PlayIcon
  else NumberLabel (globalIndex s exercise + 1).

(** The response of a load has no plan day for today. *)
Definition noWorkoutToday (fmt : string -> string) (today : string)
    (response : FetchResult) : Prop :=
  match response with
  | FetchRejected => False
  | FetchResolved None => True
  | FetchResolved (Some days) => findTodaysWorkout fmt today days = None
  end.

Definition loadFailedMessage : string :=
  "Failed to load workout. Please try again.".

(** A request among the events. *)
Definition isCall (e : Event) : bool :=
  match e with
  | Call _ _ => true
  | _ => false
  end.

(** The number written by two decimal digits (the inverse of the seconds
    field of [formatTime]). *)
Definition parse_two_digits (s : string) : option Z :=
  match s with
  | String a (String b EmptyString) =>
      Some ((Z.of_N (N_of_ascii a) - 48) * 10 + (Z.of_N (N_of_ascii b) - 48))
  | _ => None
  end.

(** The exercise-log requests among the events. *)
Definition isExerciseLog (e : Event) : bool :=
  match e with
  | Call (CreateExerciseLog _) _ => true
  | _ => false
  end.

Definition exerciseLogRequests (events : list Event) : nat :=
  length (List.filter isExerciseLog events).

(** Logging a set list on the current exercise and completing it. *)
Definition logAndComplete (env : Env) (logged : list ExerciseSet) : list Op :=
  [OpUpdateProgress (UpdSets logged); OpComplete env].

(** * Properties *)


(** ** Arrays *)

Lemma js_get_set_eq {A : Type} (l : list (option A)) (i : nat) (v : A) :
  js_get (js_set l i v) i = Some v.
Proof.
  unfold js_get, js_set. destruct (decide (i < length l)%nat) as [Hlt|Hge].
  - rewrite list_lookup_insert_eq by exact Hlt. reflexivity.
  - rewrite lookup_app_r by lia.
    rewrite lookup_app_r by (rewrite length_replicate; lia).
    rewrite length_replicate.
    replace (i - length l - (i - length l))%nat with 0%nat by lia.
    reflexivity.
Qed.

Lemma js_get_set_ne {A : Type} (l : list (option A)) (i j : nat) (v : A) :
  j <> i -> js_get (js_set l i v) j = js_get l j.
Proof.
  intros Hne. unfold js_get, js_set.
  destruct (decide (i < length l)%nat) as [Hlt|Hge].
  - rewrite list_lookup_insert_ne by congruence. reflexivity.
  - destruct (decide (j < length l)%nat) as [Hj|Hj].
    + rewrite lookup_app_l by exact Hj. reflexivity.
    + rewrite (lookup_ge_None_2 l j) by lia.
      rewrite lookup_app_r by lia.
      destruct (decide (j - length l < i - length l)%nat) as [Hin|Hout].
      * rewrite lookup_app_l by (rewrite length_replicate; exact Hin).
        rewrite lookup_replicate_2 by exact Hin. reflexivity.
      * rewrite lookup_app_r by (rewrite length_replicate; lia).
        rewrite length_replicate.
        rewrite lookup_ge_None_2; [reflexivity | simpl; lia].
Qed.

(** ** updateProgress *)

Lemma assign_writes (u : ProgressUpdate) (p : ExerciseProgress) :
  property (field_of u) (assign u p) = written_value u.
Proof. destruct u; reflexivity. Qed.

Lemma assign_frame (u : ProgressUpdate) (p : ExerciseProgress)
    (f : ProgressField) :
  f <> field_of u -> property f (assign u p) = property f p.
Proof. destruct u, f; simpl; intros Hne; congruence. Qed.

(** C9. [updateProgress(field, value)] changes only the named field of the
    progress record at the cursor: the record now at the cursor holds the
    written value in that field; every other field holds what the record at
    the cursor held before (and stays absent when there was no record);
    the record at every other index reads as before; and every other state
    cell (the cursor, the started and completed flags, both timers among
    them) is unchanged. *)
Theorem updateProgress_changes_only_named_field
    (u : ProgressUpdate) (s : State) :
  let s' := fst (run (updateProgress u s) s) in
  let i := currentExerciseIndex s in
  (exists p',
      js_get (exerciseProgress s') i = Some p'
      /\ property (field_of u) p' = written_value u
      /\ (forall p, js_get (exerciseProgress s) i = Some p ->
           forall f, f <> field_of u -> property f p' = property f p)
      /\ (js_get (exerciseProgress s) i = None ->
           forall f, f <> field_of u -> is_absent (property f p')))
  /\ (forall j, j <> i ->
        js_get (exerciseProgress s') j = js_get (exerciseProgress s) j)
  /\ s' = setExerciseProgress (exerciseProgress s') s
  /\ currentExerciseIndex s' = currentExerciseIndex s
  /\ isWorkoutStarted s' = isWorkoutStarted s
  /\ isWorkoutCompleted s' = isWorkoutCompleted s
  /\ workoutTimer s' = workoutTimer s
  /\ exerciseTimer s' = exerciseTimer s
  /\ snd (run (updateProgress u s) s) = [].
Proof.
  cbn. unfold replaceAt. split.
  - eexists. split; [apply js_get_set_eq|].
    split; [apply assign_writes|]. split.
    + intros p Hp f Hf. rewrite Hp. now apply assign_frame.
    + intros Hnone f Hf. rewrite Hnone, assign_frame by exact Hf.
      destruct f; exact I.
  - split; [intros j Hj; now apply js_get_set_ne|].
    repeat split; reflexivity.
Qed.

Lemma updateProgress_changes_only_named_field_example :
  exists p',
    js_get (exerciseProgress
              (fst (run (updateProgress (UpdNotes "felt heavy")
                           Scenario.resting) Scenario.resting))) 0
    = Some p'
    /\ property FNotes p' = PString (Some "felt heavy")
    /\ property FSets p' = PSets (Some Scenario.one_set)
    /\ property FWeightUsed p' = PNumber (Some 50)
    /\ property FRestTime p' = PNumber (Some 30)
    /\ property FIsSkipped p' = PBoolean None.
Proof.
  pose proof (updateProgress_changes_only_named_field
                (UpdNotes "felt heavy") Scenario.resting) as H.
  cbv zeta in H. destruct H as ((p' & Hp' & Hw & Hkeep & _) & _).
  assert (Hold : js_get (exerciseProgress Scenario.resting)
                   (currentExerciseIndex Scenario.resting)
                 = Some (assign (UpdSets Scenario.one_set)
                           (initialProgress Scenario.squat)))
    by (vm_compute; reflexivity).
  exists p'. split; [exact Hp'|]. split; [exact Hw|].
  split; [rewrite (Hkeep _ Hold FSets) by discriminate; reflexivity|].
  split; [rewrite (Hkeep _ Hold FWeightUsed) by discriminate; reflexivity|].
  split; [rewrite (Hkeep _ Hold FRestTime) by discriminate; reflexivity|].
  rewrite (Hkeep _ Hold FIsSkipped) by discriminate. reflexivity.
Defined.

(** ** The workout clock *)

Lemma workoutTick_paused (s : State) : isPaused s = true -> workoutTick s = s.
Proof.
  intros Hp. unfold workoutTick, clockRunning. rewrite Hp.
  now rewrite andb_false_r.
Qed.

Lemma workoutTicks_paused (k : nat) (s : State) :
  isPaused s = true -> Nat.iter k workoutTick s = s.
Proof.
  intros Hp. induction k as [|k IH]; simpl; [reflexivity|].
  rewrite IH. now apply workoutTick_paused.
Qed.

Lemma workoutTicks_running (m : nat) (s : State) :
  clockRunning s = true ->
  let s' := Nat.iter m workoutTick s in
  workoutTimer s' = (workoutTimer s + m)%nat
  /\ exerciseTimer s' = (exerciseTimer s + m)%nat
  /\ clockRunning s' = true.
Proof.
  intros Hrun. induction m as [|m IH]; simpl.
  - repeat split; [lia | lia | exact Hrun].
  - destruct IH as (Hw & He & Hr). unfold workoutTick at 1 3 5.
    rewrite Hr. cbn. rewrite Hw, He. repeat split; try lia.
    unfold clockRunning in *. cbn. exact Hr.
Qed.

(** C7. In a started, unfinished session: once [togglePause()] has set the
    paused flag, any number of ticks leaves both elapsed counters (indeed
    the whole state) as they were; after [togglePause()] is called again,
    [m] further ticks leave both counters at exactly the values held when
    paused plus [m]. *)
Theorem pause_freezes_and_resume_continues
    (s : State) (k m : nat)
    (Hstarted : isWorkoutStarted s = true)
    (Hnotdone : isWorkoutCompleted s = false)
    (Hrunning : isPaused s = false) :
  let paused := fst (run (togglePause s) s) in
  let frozen := Nat.iter k workoutTick paused in
  let resumed := fst (run (togglePause frozen) frozen) in
  let s' := Nat.iter m workoutTick resumed in
  isPaused paused = true
  /\ frozen = paused
  /\ workoutTimer frozen = workoutTimer s
  /\ exerciseTimer frozen = exerciseTimer s
  /\ isPaused resumed = false
  /\ workoutTimer resumed = workoutTimer s
  /\ exerciseTimer resumed = exerciseTimer s
  /\ workoutTimer s' = (workoutTimer s + m)%nat
  /\ exerciseTimer s' = (exerciseTimer s + m)%nat.
Proof.
  intros paused frozen resumed s'.
  assert (Hp : isPaused paused = true) by (subst paused; cbn; now rewrite Hrunning).
  assert (Hf : frozen = paused) by (subst frozen; now apply workoutTicks_paused).
  assert (Hr : clockRunning resumed = true).
  { subst resumed. rewrite Hf. subst paused. unfold clockRunning. cbn.
    rewrite Hstarted, Hnotdone, Hrunning. reflexivity. }
  destruct (workoutTicks_running m resumed Hr) as (Hw & He & _).
  fold s' in Hw, He.
  assert (Hwr : workoutTimer resumed = workoutTimer s)
    by (subst resumed; rewrite Hf; reflexivity).
  assert (Her : exerciseTimer resumed = exerciseTimer s)
    by (subst resumed; rewrite Hf; reflexivity).
  assert (Hir : isPaused resumed = false).
  { subst resumed. rewrite Hf. subst paused. cbn. now rewrite Hrunning. }
  split; [exact Hp|]. split; [exact Hf|].
  split; [rewrite Hf; reflexivity|]. split; [rewrite Hf; reflexivity|].
  split; [exact Hir|]. split; [exact Hwr|]. split; [exact Her|].
  split; lia.
Qed.

(** ** The rest countdown *)

Lemma restTicks_counting (k : nat) (s : State) :
  isRestTimerActive s = true ->
  isRestTimerPaused s = false ->
  Z.of_nat k < restTimerCountdown s ->
  let s' := Nat.iter k restTick s in
  restTimerCountdown s' = restTimerCountdown s - Z.of_nat k
  /\ isRestTimerActive s' = true
  /\ isRestTimerPaused s' = false
  /\ showRestCompleteModal s' = showRestCompleteModal s.
Proof.
  intros Ha Hp. induction k as [|k IH]; intros Hk; simpl.
  - repeat split; try assumption. lia.
  - destruct IH as (Hc & Ha' & Hp' & Hm); [lia|].
    set (t := Nat.iter k restTick s) in *.
    unfold restTick, restRunning. rewrite Ha', Hp'. cbn.
    destruct (Z.gtb_spec (restTimerCountdown t) 0) as [_|Hbad]; [|lia].
    destruct (Z.leb_spec (restTimerCountdown t) 1) as [Hbad|_]; [lia|].
    cbn. repeat split; try assumption. lia.
Qed.

Lemma restTick_idle (s : State) : restRunning s = false -> restTick s = s.
Proof. intros H. unfold restTick. now rewrite H. Qed.

Lemma restTicks_idle (k : nat) (s : State) :
  restRunning s = false -> Nat.iter k restTick s = s.
Proof.
  intros H. induction k as [|k IH]; simpl; [reflexivity|].
  rewrite IH. now apply restTick_idle.
Qed.

Lemma restTick_last (s : State) :
  isRestTimerActive s = true ->
  isRestTimerPaused s = false ->
  restTimerCountdown s = 1 ->
  let s' := restTick s in
  restTimerCountdown s' = 0 /\ isRestTimerActive s' = false
  /\ isRestTimerPaused s' = false /\ showRestCompleteModal s' = true.
Proof.
  intros Ha Hp Hc. unfold restTick, restRunning. rewrite Ha, Hp, Hc. cbn.
  repeat split.
Qed.

(** C6. A rest timer started from a target rest time [N > 0] and never
    paused shows [N - k] after [k < N] ticks and is still active, shows
    exactly zero after [N] ticks, is never negative after any number of
    ticks, and the tick that reaches zero deactivates the timer and raises
    the rest-complete modal (a state change, no exception: [restTick] is a
    total function on states). *)
Theorem rest_timer_reaches_zero_after_N_ticks
    (r : State) (N : Z)
    (Htarget : targetRestTime r = N)
    (Hpos : 0 < N) :
  let started := fst (run (startRestTimer r) r) in
  let finished := Nat.iter (Z.to_nat N) restTick started in
  restTimerCountdown started = N
  /\ isRestTimerActive started = true
  /\ isRestTimerPaused started = false
  /\ (forall k : nat, Z.of_nat k < N ->
        restTimerCountdown (Nat.iter k restTick started) = N - Z.of_nat k
        /\ isRestTimerActive (Nat.iter k restTick started) = true
        /\ showRestCompleteModal (Nat.iter k restTick started)
           = showRestCompleteModal r)
  /\ (forall k : nat, 0 <= restTimerCountdown (Nat.iter k restTick started))
  /\ restTimerCountdown finished = 0
  /\ isRestTimerActive finished = false
  /\ isRestTimerPaused finished = false
  /\ showRestCompleteModal finished = true.
Proof.
  intros started finished.
  assert (Hs : started
               = setIsRestTimerPaused false
                   (setIsRestTimerActive true (setRestTimerCountdown N r))).
  { subst started. unfold startRestTimer. rewrite Htarget.
    destruct (Z.gtb_spec N 0) as [_|Hbad]; [reflexivity | lia]. }
  assert (Hc : restTimerCountdown started = N) by (rewrite Hs; reflexivity).
  assert (Ha : isRestTimerActive started = true) by (rewrite Hs; reflexivity).
  assert (Hp : isRestTimerPaused started = false) by (rewrite Hs; reflexivity).
  assert (Hm : showRestCompleteModal started = showRestCompleteModal r)
    by (rewrite Hs; reflexivity).
  assert (Hbefore : forall k : nat, Z.of_nat k < N ->
            restTimerCountdown (Nat.iter k restTick started) = N - Z.of_nat k
            /\ isRestTimerActive (Nat.iter k restTick started) = true
            /\ isRestTimerPaused (Nat.iter k restTick started) = false
            /\ showRestCompleteModal (Nat.iter k restTick started)
               = showRestCompleteModal r).
  { intros k Hk.
    destruct (restTicks_counting k started Ha Hp) as (H1 & H2 & H3 & H4);
      [lia|].
    rewrite Hc, Hm in *. auto. }
  assert (Hfin : restTimerCountdown finished = 0
                 /\ isRestTimerActive finished = false
                 /\ isRestTimerPaused finished = false
                 /\ showRestCompleteModal finished = true).
  { subst finished.
    replace (Z.to_nat N) with (S (Z.to_nat (N - 1))) by lia. simpl.
    destruct (Hbefore (Z.to_nat (N - 1))) as (H1 & H2 & H3 & _); [lia|].
    apply restTick_last; try assumption. rewrite H1. lia. }
  split; [exact Hc|]. split; [exact Ha|]. split; [exact Hp|].
  split; [intros k Hk; destruct (Hbefore k Hk) as (?&?&?&?); auto|].
  split; [|exact Hfin].
  intros k. destruct (Z_lt_le_dec (Z.of_nat k) N) as [Hk|Hk].
  - destruct (Hbefore k Hk) as (H1 & _). rewrite H1. lia.
  - replace k with ((k - Z.to_nat N) + Z.to_nat N)%nat by lia.
    rewrite Nat.iter_add. fold finished.
    rewrite restTicks_idle.
    + destruct Hfin as (H0 & _). rewrite H0. lia.
    + unfold restRunning. destruct Hfin as (_ & H1 & _). now rewrite H1.
Qed.

(** ** The progress bar *)



(** ** Outcome of the two asynchronous handlers *)

Lemma completeExercise_outcome (env : Env) (r : State) :
  let h := fst (run (completeExercise env r) r) in
  advance r h /\ same_session_frame r h /\ same_rest_timer r h
  /\ exerciseProgress h = exerciseProgress r
  /\ skippedExercises h = skippedExercises r.
Proof.
  complete_paths env r;
    (split; [solve_advance | repeat split]).
Qed.

Lemma skipCurrentExercise_outcome (env : Env) (r : State) :
  let h := fst (run (skipCurrentExercise env r) r) in
  advance r h /\ same_session_frame r h /\ same_rest_timer r h.
Proof.
  skip_paths env r;
    (split; [solve_advance | repeat split]).
Qed.

(** ** Runs of operations *)

Lemma fst_steps_cons (fmt : string -> string) (op : Op) (ops : list Op)
    (s : State) :
  fst (steps fmt (op :: ops) s) = fst (steps fmt ops (fst (step fmt op s))).
Proof.
  simpl. destruct (step fmt op s) as [s1 e1]. simpl.
  destruct (steps fmt ops s1) as [s2 e2]. reflexivity.
Qed.

Lemma reachable_steps (d : PlanDayWithBlocks) (fmt : string -> string)
    (ops : list Op) (s : State) :
  reachable d fmt s ->
  Forall (admissible d fmt) ops ->
  reachable d fmt (fst (steps fmt ops s)).
Proof.
  intros Hs Hops. revert s Hs.
  induction Hops as [|op ops Hop _ IH]; intros s Hs.
  - exact Hs.
  - rewrite fst_steps_cons. apply IH. now apply reach_step.
Qed.

(** ** completeExercise with nothing logged *)

Lemma setIsCompletingExercise_idle (r : State) :
  isCompletingExercise r = false -> setIsCompletingExercise false r = r.
Proof. destruct r; cbn; intros ->; reflexivity. Qed.

(** C1 (as amended). When a current exercise exists and its logged set
    list is empty or absent, [completeExercise()] submits no exercise log
    (the only call is the lookup of the current user), and leaves the cursor
    and every state cell unchanged (the busy flag ends cleared). The user is
    looked up before the sets are checked: with a signed-in user the report
    is the No Sets Logged alert; when the lookup fails or yields no user the
    report is the generic error alert. *)
Theorem completeExercise_without_sets_aborts
    (env : Env) (r : State)
    (e : WorkoutBlockWithExercise) (p : ExerciseProgress)
    (Hcur : currentExercise r = Some e)
    (Hprog : currentProgress r = Some p)
    (Hempty : sets p = None \/ sets p = Some []) :
  let s' := fst (run (completeExercise env r) r) in
  let events := snd (run (completeExercise env r) r) in
  s' = setIsCompletingExercise false r
  /\ (isCompletingExercise r = false -> s' = r)
  /\ currentExerciseIndex s' = currentExerciseIndex r
  /\ (forall c ok, In (Call c ok) events -> c = GetCurrentUser)
  /\ (env_user env = UserSignedIn ->
        events = [Call GetCurrentUser true; noSetsAlert])
  /\ (env_user env <> UserSignedIn ->
        In errorAlert_complete events /\ ~ In noSetsAlert events).
Proof.
  assert (Hstate : fst (run (completeExercise env r) r)
                   = setIsCompletingExercise false r).
  { destruct env as [u cl mk rf sk now tz]. unfold completeExercise.
    rewrite Hcur, Hprog.
    destruct u; destruct Hempty as [-> | ->]; monad_red; reflexivity. }
  cbv zeta. rewrite Hstate.
  split; [reflexivity|].
  split; [apply setIsCompletingExercise_idle|].
  split; [reflexivity|].
  destruct env as [u cl mk rf sk now tz]. unfold completeExercise.
  rewrite Hcur, Hprog.
  destruct u; destruct Hempty as [-> | ->]; monad_red;
    (split; [intros c ok Hin; simpl in Hin;
             unfold noSetsAlert, errorAlert_complete in Hin;
             repeat (destruct Hin as [Hin|Hin]; try congruence); tauto|]);
    (split; [intros Hu; first [discriminate Hu | reflexivity]|]);
    intros Hu; try congruence;
    (split; [simpl; tauto|]);
    simpl; unfold errorAlert_complete, noSetsAlert;
    intros Hin; repeat (destruct Hin as [Hin|Hin]; try discriminate Hin);
    exact Hin.
Qed.

Lemma completeExercise_without_sets_aborts_example :
  currentExercise Scenario.fresh = Some Scenario.squat
  /\ snd (run (completeExercise Scenario.online Scenario.fresh)
            Scenario.fresh)
     = [Call GetCurrentUser true; noSetsAlert]
  /\ fst (run (completeExercise Scenario.online Scenario.fresh)
            Scenario.fresh)
     = Scenario.fresh.
Proof.
  pose proof (completeExercise_without_sets_aborts Scenario.online
                Scenario.fresh Scenario.squat
                (initialProgress Scenario.squat)
                eq_refl eq_refl (or_intror eq_refl)) as H.
  cbv zeta in H. destruct H as (_ & Hsame & _ & _ & Hev & _).
  split; [reflexivity|]. split; [exact (Hev eq_refl)|].
  exact (Hsame eq_refl).
Defined.

(** C1 as stated fails: with the set list of the current exercise empty
    and no signed-in user, [completeExercise()] reports the generic error,
    not the validation error. *)
Lemma completeExercise_without_sets_signed_out :
  currentExercise Scenario.fresh = Some Scenario.squat
  /\ (exists p, currentProgress Scenario.fresh = Some p /\ sets p = Some [])
  /\ snd (run (completeExercise Scenario.signed_out Scenario.fresh)
            Scenario.fresh)
     = [Call GetCurrentUser true; errorAlert_complete]
  /\ ~ In noSetsAlert
         (snd (run (completeExercise Scenario.signed_out Scenario.fresh)
                 Scenario.fresh)).
Proof.
  split; [reflexivity|].
  split; [eexists; split; reflexivity|].
  split; [reflexivity|].
  cbn. intros [H|[H|[]]]; discriminate H.
Qed.

(** ** completeExercise with a failing request *)

(** C2. Whenever a call made by [completeExercise()] fails (the user
    lookup, the exercise-log request, the day-completion request or the
    dashboard refresh after it), the error alert is raised and the state
    after the handler is the state before it with the busy flag cleared: the
    cursor, the completed flag and the progress records are what they
    were. *)
Theorem completeExercise_failure_keeps_state
    (env : Env) (r : State) (c : RemoteCall)
    (Hfailed : In (Call c false) (snd (run (completeExercise env r) r))) :
  let s' := fst (run (completeExercise env r) r) in
  In errorAlert_complete (snd (run (completeExercise env r) r))
  /\ s' = setIsCompletingExercise false r
  /\ currentExerciseIndex s' = currentExerciseIndex r
  /\ isWorkoutCompleted s' = isWorkoutCompleted r
  /\ exerciseProgress s' = exerciseProgress r.
Proof.
  cbv zeta.
  assert (Hmain :
    In errorAlert_complete (snd (run (completeExercise env r) r))
    /\ fst (run (completeExercise env r) r) = setIsCompletingExercise false r).
  { revert Hfailed. complete_paths env r;
      intros Hfailed;
      first [ split; [simpl; tauto | reflexivity]
            | exfalso; simpl in Hfailed; intuition discriminate ]. }
  destruct Hmain as [Halert Hstate]. rewrite Hstate.
  repeat split; try reflexivity. exact Halert.
Qed.

Lemma completeExercise_failure_keeps_state_example :
  In (Call (refreshRange Scenario.refresh_down) false)
     (snd (run (completeExercise Scenario.refresh_down Scenario.on_last)
             Scenario.on_last))
  /\ currentExerciseIndex
       (fst (run (completeExercise Scenario.refresh_down Scenario.on_last)
               Scenario.on_last)) = 1%nat
  /\ isWorkoutCompleted
       (fst (run (completeExercise Scenario.refresh_down Scenario.on_last)
               Scenario.on_last)) = false.
Proof.
  assert (Hin : In (Call (refreshRange Scenario.refresh_down) false)
     (snd (run (completeExercise Scenario.refresh_down Scenario.on_last)
             Scenario.on_last))) by (vm_compute; tauto).
  pose proof (completeExercise_failure_keeps_state Scenario.refresh_down
                Scenario.on_last _ Hin) as H.
  cbv zeta in H. destruct H as (_ & _ & Hc & Hd & _).
  split; [exact Hin|]. split; [rewrite Hc | rewrite Hd]; reflexivity.
Defined.

(** ** The rest timer across exercises *)

(** C5 (as amended). The rest timer is one triple of state cells, so at
    most one countdown exists. [completeExercise()] and
    [skipCurrentExercise()] never write these cells, whatever the outcome
    and also when they move the cursor; [cancelRestTimer()] and the
    abandonment reset clear them. *)
Theorem rest_timer_untouched_by_advancing (env : Env) (r : State) :
  same_rest_timer r (fst (run (completeExercise env r) r))
  /\ same_rest_timer r (fst (run (skipCurrentExercise env r) r))
  /\ isRestTimerActive (fst (run cancelRestTimer r)) = false
  /\ restTimerCountdown (fst (run cancelRestTimer r)) = 0
  /\ isRestTimerActive (resetAbandoned r) = false
  /\ restTimerCountdown (resetAbandoned r) = 0.
Proof.
  split; [apply completeExercise_outcome|].
  split; [apply skipCurrentExercise_outcome|].
  repeat split.
Qed.

(** C5 as stated fails: a countdown started on the first exercise is still
    running, with 29 seconds left, after [completeExercise()] has moved the
    cursor to the second exercise. *)
Lemma rest_timer_survives_advancing :
  let s' := fst (step Scenario.formatDateAsString
                   (OpComplete Scenario.online) Scenario.resting) in
  reachable Scenario.day Scenario.formatDateAsString Scenario.resting
  /\ currentExerciseIndex Scenario.resting = 0%nat
  /\ isRestTimerActive Scenario.resting = true
  /\ currentExerciseIndex s' = 1%nat
  /\ currentExercise s' = Some Scenario.plank
  /\ isRestTimerActive s' = true
  /\ isRestTimerPaused s' = false
  /\ restTimerCountdown s' = 29.
Proof.
  cbv zeta. split; [|repeat split].
  apply reachable_steps; [apply reach_initial | scenario_admissible].
Qed.

(** ** The cursor *)

(** The effects change the cursor only through the abandonment reset. *)
Lemma settle_cursor (r h : State) :
  currentExerciseIndex (settle r h)
  = if abandoned h then 0%nat else currentExerciseIndex h.
Proof.
  unfold settle, abandonmentEffect, syncContext, abandoned.
  destruct h as [? ? ? ? hs hc ? ? ? ? ? ? ? ? ? ? ? ? ? ? hx];
    destruct r as [? ? ? ? rs rc ? ? ? ? ? ? ? ? ? ? ? ? ? ? rx];
    destruct hs, hc, hx, rs, rc; reflexivity.
Qed.

Lemma settle_frame (r h : State) :
  isWorkoutCompleted (settle r h) = isWorkoutCompleted h
  /\ workout (settle r h) = workout h.
Proof.
  unfold settle, abandonmentEffect, syncContext, abandoned.
  destruct h as [? ? ? ? hs hc ? ? ? ? ? ? ? ? ? ? ? ? ? ? hx];
    destruct r as [? ? ? ? rs rc ? ? ? ? ? ? ? ? ? ? ? ? ? ? rx];
    destruct hs, hc, hx, rs, rc; split; reflexivity.
Qed.

(** After the effects the state is never in the abandoned condition. *)
Lemma settle_quiet (r h : State) : abandoned (settle r h) = false.
Proof.
  unfold settle, abandonmentEffect, syncContext, abandoned.
  destruct h as [? ? ? ? hs hc ? ? ? ? ? ? ? ? ? ? ? ? ? ? hx];
    destruct r as [? ? ? ? rs rc ? ? ? ? ? ? ? ? ? ? ? ? ? ? rx];
    destruct hs, hc, hx, rs, rc; reflexivity.
Qed.

Lemma reachable_quiet (d : PlanDayWithBlocks) (fmt : string -> string)
    (s : State) :
  reachable d fmt s -> abandoned s = false.
Proof.
  intros [|r op _ _]; [reflexivity|].
  unfold step. destruct (handle fmt op r) as [h ev]. apply settle_quiet.
Qed.

Lemma advance_cursor_move (r h : State) : advance r h -> cursor_move r h.
Proof.
  intros [Hc _ _ | Hb Hc _ _ | _ He Hc Hd _].
  - now apply move_none.
  - now apply move_next.
  - now apply move_end.
Qed.

Lemma advance_flags (r h : State) :
  advance r h ->
  isWorkoutStarted h = isWorkoutStarted r ->
  (isWorkoutCompleted r = true -> isWorkoutCompleted h = true)
  /\ (abandoned r = false -> abandoned h = false).
Proof.
  unfold abandoned. intros [Hc Hd Hx | Hb Hc Hd Hx | _ He Hc Hd Hx] Hs;
    rewrite ?Hd, ?Hx, ?Hs; split; try tauto; intros _;
    now rewrite ?andb_false_r.
Qed.

Lemma loadWorkout_outcome (fmt : string -> string) (today : string)
    (response : FetchResult) (forceRefresh : bool) (r : State) :
  let h := fst (run (loadWorkout fmt today response forceRefresh) r) in
  currentExerciseIndex h = currentExerciseIndex r
  /\ isWorkoutStarted h = isWorkoutStarted r
  /\ (isWorkoutCompleted h = isWorkoutCompleted r
      /\ isWorkoutInProgress h = isWorkoutInProgress r
      \/ isWorkoutCompleted h = true)
  /\ (workout h = workout r \/ workout h = None
      \/ exists days w, response = FetchResolved (Some days)
                        /\ findTodaysWorkout fmt today days = Some w
                        /\ workout h = Some w).
Proof.
  load_paths response forceRefresh; cbn;
    (split; [reflexivity|]); (split; [reflexivity|]);
    (split; [first [left; split; reflexivity | right; reflexivity]|]);
    first [ left; reflexivity | right; left; reflexivity
          | right; right; eexists; eexists;
            split; [reflexivity|]; split; [eassumption | reflexivity] ].
Qed.

Lemma onRefresh_run (fmt : string -> string) (today : string)
    (response : FetchResult) (r : State) :
  fst (run (onRefresh fmt today response) r)
  = fst (run (loadWorkout fmt today response true) (setRefreshing true r)).
Proof.
  unfold onRefresh, run, update, mbind, Handler_bind, bind.
  destruct (loadWorkout fmt today response true (setRefreshing true r))
    as [[c s'] e].
  reflexivity.
Qed.

Lemma load_summary (d : PlanDayWithBlocks) (fmt : string -> string)
    (today : string) (response : FetchResult) (forceRefresh : bool)
    (op : Op) (r : State) :
  serves d fmt today response ->
  handler_summary d op r
    (fst (run (loadWorkout fmt today response forceRefresh) r)).
Proof.
  intros Hserves.
  destruct (loadWorkout_outcome fmt today response forceRefresh r)
    as (Hc & Hs & Hflags & Hw).
  split; [now apply move_none|].
  split.
  { intros Hd. destruct Hflags as [[Hsame _]|Ht]; congruence. }
  split.
  { unfold abandoned. intros Hq Ha. exfalso.
    destruct Hflags as [[Hsame Hx]|Ht].
    - rewrite Hsame, Hx, Hs in Ha. congruence.
    - rewrite Ht in Ha. rewrite andb_false_r in Ha. discriminate. }
  destruct Hw as [Hw|[Hw|(days & w & -> & Hfind & Hw)]];
    [now left | now right; left | right; right].
  exists w. split; [exact Hw|].
  unfold serves in Hserves. now rewrite Hfind in Hserves.
Qed.

Lemma handle_summary (d : PlanDayWithBlocks) (fmt : string -> string)
    (op : Op) (r : State) :
  admissible d fmt op ->
  handler_summary d op r (fst (handle fmt op r)).
Proof.
  intros Hadm. destruct op; cbn [handle].
  - now apply load_summary.
  - rewrite onRefresh_run.
    pose proof (load_summary d fmt today response true
                  (OpRefresh today response) (setRefreshing true r) Hadm)
      as (Hm & Hd & Hq & Hw).
    split; [|split; [exact Hd|split; [exact Hq|exact Hw]]].
    destruct Hm as [Hc|Hb Hc|He Hc Hdone];
      [now apply move_none | now apply move_next | now apply move_end].
  - (* startWorkout *)
    split; [apply move_none; reflexivity|].
    split; [intros H; exact H|].
    split; [intros _ H; unfold abandoned in H; cbn in H; discriminate|].
    left; reflexivity.
  - simple_handler.
  - simple_handler.
  - (* completeExercise *)
    destruct (completeExercise_outcome env r) as (Hadv & Hframe & _).
    destruct Hframe as (Hw & Hs & _).
    destruct (advance_flags _ _ Hadv Hs) as [Hd Hq].
    split; [now apply advance_cursor_move|].
    split; [exact Hd|].
    split; [intros H1 H2; rewrite (Hq H1) in H2; discriminate|].
    now left.
  - (* skipCurrentExercise *)
    destruct (skipCurrentExercise_outcome env r) as (Hadv & Hframe & _).
    destruct Hframe as (Hw & Hs & _).
    destruct (advance_flags _ _ Hadv Hs) as [Hd Hq].
    split; [now apply advance_cursor_move|].
    split; [exact Hd|].
    split; [intros H1 H2; rewrite (Hq H1) in H2; discriminate|].
    now left.
  - unfold startRestTimer, when.
    destruct (targetRestTime r >? 0); simple_handler.
  - simple_handler.
  - simple_handler.
  - simple_handler.
  - unfold workoutTick. destruct (clockRunning r); simple_handler.
  - unfold restTick. destruct (restRunning r); [|simple_handler].
    destruct (restTimerCountdown r <=? 1); simple_handler.
  - simple_handler.
  - simple_handler.
  - destruct thenComplete; simple_handler.
  - (* the navigation shell writes the context flag *)
    split; [apply move_none; reflexivity|].
    split; [intros H; exact H|].
    split; [|left; reflexivity].
    unfold abandoned. cbn. intros _ Ha.
    destruct inProgress; [discriminate Ha|].
    split; [reflexivity|].
    destruct (isWorkoutStarted r); [reflexivity | discriminate Ha].
Qed.

Lemma exercises_of_plan (d : PlanDayWithBlocks) (s : State) :
  (forall w, workout s = Some w -> blocks w = blocks d) ->
  exercises s = [] \/ length (exercises s) = exerciseCount d.
Proof.
  intros Hplan. unfold exercises, getFlattenedExercises, exerciseCount.
  destruct (workout s) as [w|]; [|now left].
  right. now rewrite (Hplan w eq_refl).
Qed.

Lemma beforeLast_bound (s : State) :
  beforeLast s = true ->
  (S (currentExerciseIndex s) < length (exercises s))%nat.
Proof. unfold beforeLast. intros H. apply Z.ltb_lt in H. lia. Qed.

Lemma currentExercise_bound (s : State) :
  is_Some (currentExercise s) ->
  (currentExerciseIndex s < length (exercises s))%nat.
Proof. unfold currentExercise. intros H. now apply lookup_lt_is_Some in H. Qed.

Lemma step_invariant (d : PlanDayWithBlocks) (fmt : string -> string)
    (op : Op) (s : State) :
  valid_plan d ->
  admissible d fmt op ->
  session_invariant d s ->
  session_invariant d (fst (step fmt op s))
  /\ ((currentExerciseIndex s
       <= currentExerciseIndex (fst (step fmt op s)))%nat
      \/ op = OpContext false /\ isWorkoutStarted s = true
         /\ currentExerciseIndex (fst (step fmt op s)) = 0%nat).
Proof.
  intros Hvalid Hadm (Hplan & Hle & Hfull & Hquiet).
  pose proof (handle_summary d fmt op s Hadm) as (Hmove & Hdone & Hab & Hw).
  unfold step. destruct (handle fmt op s) as [h ev]. cbn [fst] in *.
  destruct (settle_frame s h) as [Hsd Hsw].
  pose proof (settle_cursor s h) as Hsc.
  pose proof (settle_quiet s h) as Hsq.
  pose proof (exercises_of_plan d s Hplan) as Hex.
  assert (Hplan' : forall w, workout h = Some w -> blocks w = blocks d).
  { intros w Hh. destruct Hw as [Hw|[Hw|(w' & Hw & _ & _ & Hb)]].
    - apply Hplan. congruence.
    - congruence.
    - congruence. }
  assert (Hcur : (currentExerciseIndex s <= currentExerciseIndex h)%nat
                 /\ (currentExerciseIndex h <= exerciseCount d)%nat
                 /\ (currentExerciseIndex h = exerciseCount d ->
                     isWorkoutCompleted h = true)).
  { destruct Hmove as [Hc|Hb Hc|He Hc Hd].
    - rewrite Hc. split; [lia|]. split; [exact Hle|]. auto.
    - apply beforeLast_bound in Hb.
      destruct Hex as [Hex|Hex]; [rewrite Hex in Hb; simpl in Hb; lia|].
      rewrite Hc. split; [lia|]. split; lia.
    - apply currentExercise_bound in He.
      destruct Hex as [Hex|Hex]; [rewrite Hex in He; simpl in He; lia|].
      rewrite Hc. split; [lia|]. split; [lia|]. intros _. exact Hd. }
  destruct Hcur as (Hmono & Hle' & Hfull').
  unfold valid_plan in Hvalid.
  destruct (abandoned h) eqn:Hah.
  - destruct (Hab Hquiet eq_refl) as [-> Hstarted].
    split.
    + split; [intros w; rewrite Hsw; apply Hplan'|].
      rewrite Hsc, Hsd. split; [lia|]. split; [lia|exact Hsq].
    + right. auto.
  - split.
    + split; [intros w; rewrite Hsw; apply Hplan'|].
      rewrite Hsc, Hsd. split; [exact Hle'|]. split; [exact Hfull'|exact Hsq].
    + left. rewrite Hsc. exact Hmono.
Qed.

Lemma reachable_invariant (d : PlanDayWithBlocks) (fmt : string -> string)
    (s : State) :
  valid_plan d -> reachable d fmt s -> session_invariant d s.
Proof.
  intros Hvalid Hr. induction Hr as [|s op Hr IH Hadm].
  - unfold session_invariant, valid_plan in *. cbn.
    split; [intros w H; discriminate H|].
    split; [lia|]. split; [lia|reflexivity].
  - exact (proj1 (step_invariant d fmt op s Hvalid Hadm IH)).
Qed.

(** C3 (as amended). In a session over a plan day with at least one
    exercise, in every state reached by any sequence of operations: the
    cursor is at most the exercise count, it equals the exercise count only
    when the day is completed, the loaded workout has exactly that many
    exercises, and every operation leaves the cursor where it was or moves
    it forward, except the abandonment reset (the context flag cleared
    while the workout is started), which puts it back to 0. *)
Theorem cursor_bounded_and_monotone_up_to_reset
    (d : PlanDayWithBlocks) (fmt : string -> string) (s : State)
    (Hvalid : valid_plan d)
    (Hreach : reachable d fmt s) :
  (currentExerciseIndex s <= exerciseCount d)%nat
  /\ (currentExerciseIndex s = exerciseCount d ->
      isWorkoutCompleted s = true)
  /\ (forall w, workout s = Some w ->
        length (exercises s) = exerciseCount d)
  /\ (forall op, admissible d fmt op ->
        (currentExerciseIndex s
         <= currentExerciseIndex (fst (step fmt op s)))%nat
        \/ op = OpContext false /\ isWorkoutStarted s = true
           /\ currentExerciseIndex (fst (step fmt op s)) = 0%nat).
Proof.
  pose proof (reachable_invariant d fmt s Hvalid Hreach) as Hinv.
  pose proof Hinv as (Hplan & Hle & Hfull & Hquiet).
  split; [exact Hle|]. split; [exact Hfull|]. split.
  - intros w Hw. unfold exercises, getFlattenedExercises, exerciseCount.
    rewrite Hw. now rewrite (Hplan w Hw).
  - intros op Hadm.
    exact (proj2 (step_invariant d fmt op s Hvalid Hadm Hinv)).
Qed.

Lemma cursor_bounded_and_monotone_up_to_reset_example :
  (currentExerciseIndex Scenario.on_last <= 2)%nat
  /\ (currentExerciseIndex Scenario.on_last
      <= currentExerciseIndex
           (fst (step Scenario.formatDateAsString
                   (OpComplete Scenario.online) Scenario.on_last)))%nat.
Proof.
  assert (Hvalid : valid_plan Scenario.day) by (vm_compute; lia).
  assert (Hreach : reachable Scenario.day Scenario.formatDateAsString
                     Scenario.on_last).
  { apply reachable_steps; [apply reach_initial | scenario_admissible]. }
  pose proof (cursor_bounded_and_monotone_up_to_reset Scenario.day
                Scenario.formatDateAsString Scenario.on_last Hvalid Hreach)
    as (Hle & _ & _ & Hstep).
  split; [exact Hle|].
  destruct (Hstep (OpComplete Scenario.online) I) as [H|[H _]];
    [exact H | discriminate H].
Defined.

(** C3 as stated fails: after the first exercise is completed the cursor is
    1, and the abandonment reset puts it back to 0. *)
Lemma cursor_decreases_on_abandonment :
  let s := Scenario.run_ops
             [Scenario.load Scenario.day; OpStart;
              OpUpdateProgress (UpdSets Scenario.one_set);
              OpComplete Scenario.online] in
  let s' := fst (step Scenario.formatDateAsString (OpContext false) s) in
  valid_plan Scenario.day
  /\ reachable Scenario.day Scenario.formatDateAsString s
  /\ reachable Scenario.day Scenario.formatDateAsString s'
  /\ currentExerciseIndex s = 1%nat
  /\ currentExerciseIndex s' = 0%nat
  /\ (currentExerciseIndex s' < currentExerciseIndex s)%nat.
Proof.
  cbv zeta.
  assert (Hreach : reachable Scenario.day Scenario.formatDateAsString
            (Scenario.run_ops
               [Scenario.load Scenario.day; OpStart;
                OpUpdateProgress (UpdSets Scenario.one_set);
                OpComplete Scenario.online])).
  { apply reachable_steps; [apply reach_initial | scenario_admissible]. }
  split; [vm_compute; lia|]. split; [exact Hreach|].
  split; [apply reach_step; [exact Hreach | exact I]|].
  split; [reflexivity|]. split; [reflexivity|]. vm_compute. lia.
Qed.

(** ** Finishing the day *)

Lemma completeExercise_no_current (env : Env) (s : State) :
  currentExercise s = None -> run (completeExercise env s) s = (s, []).
Proof. intros H. unfold completeExercise. rewrite H. reflexivity. Qed.

Lemma skipCurrentExercise_no_current (env : Env) (s : State) :
  currentExercise s = None -> run (skipCurrentExercise env s) s = (s, []).
Proof. intros H. unfold skipCurrentExercise. rewrite H. reflexivity. Qed.

Lemma currentExercise_at_end (s : State) :
  currentExerciseIndex s = length (exercises s) -> currentExercise s = None.
Proof.
  intros H. unfold currentExercise. apply lookup_ge_None_2. lia.
Qed.

(** On the last exercise every index is at or before the cursor. *)
Lemma allProcessed_on_last (r : State) :
  is_Some (currentExercise r) -> beforeLast r = false ->
  allProcessed r = true.
Proof.
  intros Hcur Hlast. apply currentExercise_bound in Hcur.
  unfold beforeLast in Hlast. apply Z.ltb_ge in Hlast.
  unfold allProcessed. apply forallb_forall. intros b Hb.
  apply list_elem_of_In in Hb. apply elem_of_lookup_imap in Hb.
  destruct Hb as (i & ex & -> & Hi).
  apply lookup_lt_Some in Hi.
  destruct (Nat.eq_dec i (currentExerciseIndex r)) as [->|Hne].
  - rewrite Nat.eqb_refl. now rewrite orb_true_r.
  - assert (Hlt : (i < currentExerciseIndex r)%nat) by lia.
    apply Nat.ltb_lt in Hlt. now rewrite Hlt.
Qed.

Lemma finished_state (r s' : State) (w : PlanDayWithBlocks)
    (events : list Event) :
  workout r = Some w ->
  workout s' = workout r ->
  loading s' = loading r ->
  error s' = error r ->
  isWorkoutCompleted s' = true ->
  currentExerciseIndex s' = length (exercises r) ->
  dayCompletionRequests events = 1%nat ->
  finishes_day (s', events).
Proof.
  intros Hw Hsame Hl He Hdone Hcur Hone.
  assert (Hexs : exercises s' = exercises r)
    by (unfold exercises, getFlattenedExercises; now rewrite Hsame).
  assert (Hend : currentExerciseIndex s' = length (exercises s'))
    by (now rewrite Hexs).
  unfold finishes_day. cbn [fst snd].
  split; [exact Hone|]. split; [exact Hdone|]. split; [exact Hend|].
  split; [intros env'; apply completeExercise_no_current;
          now apply currentExercise_at_end|].
  split; [intros env'; apply skipCurrentExercise_no_current;
          now apply currentExercise_at_end|].
  intros Hload Herr. unfold render.
  rewrite Hload, Herr, Hsame, Hw, Hdone. reflexivity.
Qed.

(** C4 (as amended). With the cursor on the last exercise of a plan day
    whose identifier is not 0, a [skipCurrentExercise()] whose requests
    succeed, and a [completeExercise()] with a signed-in user, at least one
    logged set and requests that succeed, each submit the day-completion
    request exactly once, set the completed flag and put the cursor at the
    exercise count; in the state they leave, any further
    [completeExercise()] or [skipCurrentExercise()] returns at once with no
    request, no alert and no state change, and the completed screen is
    shown. *)
Theorem last_exercise_completes_day_once
    (env : Env) (r : State)
    (e : WorkoutBlockWithExercise) (w : PlanDayWithBlocks)
    (Hw : workout r = Some w)
    (Hcur : currentExercise r = Some e)
    (Hlast : beforeLast r = false)
    (Hid : truthy (day_id w) = true)
    (Hmark : env_markComplete env = true) :
  (env_skip env = true ->
   finishes_day (run (skipCurrentExercise env r) r))
  /\ (forall p st l,
        currentProgress r = Some p ->
        sets p = Some (st :: l) ->
        env_user env = UserSignedIn ->
        env_createLog env = true ->
        env_refresh env = true ->
        finishes_day (run (completeExercise env r) r)).
Proof.
  assert (Hall : allProcessed r = true)
    by (apply allProcessed_on_last; [eexists; exact Hcur | exact Hlast]).
  destruct env as [u cl mk rf sk now tz]. cbn in Hmark. subst mk.
  split.
  - cbn. intros ->. unfold skipCurrentExercise.
    rewrite Hcur, Hw, Hlast, Hall, Hid. monad_red.
    eapply finished_state; first [exact Hw | reflexivity].
  - cbn. intros p st l Hp Hsets -> -> ->. unfold completeExercise.
    rewrite Hcur, Hp, Hsets, Hlast, Hw, Hid. monad_red.
    eapply finished_state; first [exact Hw | reflexivity].
Qed.

Lemma last_exercise_completes_day_once_example :
  finishes_day
    (run (skipCurrentExercise Scenario.online Scenario.on_last)
       Scenario.on_last)
  /\ finishes_day
       (run (completeExercise Scenario.online Scenario.on_last)
          Scenario.on_last).
Proof.
  destruct (last_exercise_completes_day_once Scenario.online
              Scenario.on_last Scenario.plank Scenario.day
              eq_refl eq_refl eq_refl eq_refl eq_refl) as [Hskip Hcomplete].
  split; [exact (Hskip eq_refl)|].
  exact (Hcomplete
           (assign (UpdSets Scenario.one_set) (initialProgress Scenario.plank))
           (mkSet 10 50 true) [] eq_refl eq_refl eq_refl eq_refl eq_refl).
Defined.

(** C4 as stated fails. On a plan day stored under the identifier 0,
    skipping the last exercise sends no day-completion request and the day
    is not completed. And when the dashboard refresh fails after the
    day-completion request went through, the day is not completed either,
    so that the retry sends the request a second time. *)
Lemma last_exercise_not_always_completed_once :
  let skipped :=
    run (skipCurrentExercise Scenario.online Scenario.on_last_without_id)
      Scenario.on_last_without_id in
  let failed :=
    run (completeExercise Scenario.refresh_down Scenario.on_last)
      Scenario.on_last in
  let retried :=
    steps Scenario.formatDateAsString
      [OpComplete Scenario.refresh_down; OpComplete Scenario.online]
      Scenario.on_last in
  beforeLast Scenario.on_last_without_id = false
  /\ currentExercise Scenario.on_last_without_id = Some Scenario.plank
  /\ dayCompletionRequests (snd skipped) = 0%nat
  /\ isWorkoutCompleted (fst skipped) = false
  /\ beforeLast Scenario.on_last = false
  /\ currentExercise Scenario.on_last = Some Scenario.plank
  /\ dayCompletionRequests (snd failed) = 1%nat
  /\ isWorkoutCompleted (fst failed) = false
  /\ dayCompletionRequests (snd retried) = 2%nat.
Proof. cbv zeta. repeat split. Qed.

(** ** Dates *)

Lemma findTodaysWorkout_matches (fmt : string -> string) (today : string)
    (planDays : list PlanDayWithBlocks) (w : PlanDayWithBlocks) :
  findTodaysWorkout fmt today planDays = Some w ->
  In w planDays /\ fmt (day_date w) = today.
Proof.
  unfold findTodaysWorkout. intros H. apply find_some in H.
  destruct H as [Hin Heq]. split; [exact Hin|]. now apply String.eqb_eq.
Qed.

Lemma findTodaysWorkout_none (fmt : string -> string) (today : string)
    (planDays : list PlanDayWithBlocks) :
  findTodaysWorkout fmt today planDays = None ->
  forall w, In w planDays -> fmt (day_date w) <> today.
Proof.
  unfold findTodaysWorkout. intros H w Hin Heq.
  pose proof (find_none _ _ H w Hin) as Hno. cbn in Hno.
  apply String.eqb_eq in Heq. congruence.
Qed.

(** C8, at an input where it fails. On a device eight hours west of UTC,
    at 17:00 local time on 2024-03-09, completing the last exercise sends
    the dashboard refresh the range 2024-02-09 to 2024-03-17: the UTC
    calendar dates of the two instants, one day after their local dates
    2024-02-08 and 2024-03-16. *)
Theorem dashboard_refresh_sends_utc_dates :
  let events :=
    snd (run (completeExercise Scenario.online Scenario.on_last)
           Scenario.on_last) in
  let start := setDate_relative Scenario.zone Scenario.now (-30) in
  let stop := setDate_relative Scenario.zone Scenario.now 7 in
  In (Call (RefreshDashboard "2024-02-09" "2024-03-17") true) events
  /\ local_date_string Scenario.tz Scenario.now = "2024-03-09"
  /\ toISOString_date Scenario.now = "2024-03-10"
  /\ local_date_string Scenario.tz start = "2024-02-08"
  /\ local_date_string Scenario.tz stop = "2024-03-16"
  /\ ~ In (Call (RefreshDashboard (local_date_string Scenario.tz start)
                   (local_date_string Scenario.tz stop)) true) events.
Proof.
  cbv zeta. split; [vm_compute; tauto|].
  split; [reflexivity|]. split; [reflexivity|].
  split; [reflexivity|]. split; [reflexivity|].
  vm_compute. intros H.
  repeat (destruct H as [H|H]; [discriminate H|]). exact H.
Qed.

(** ** The progress bar and skipped exercises *)



(** ** Instances of the clock and countdown theorems *)

Lemma pause_freezes_and_resume_continues_example :
  workoutTimer
    (Nat.iter 5 workoutTick
       (fst (run (togglePause
                    (Nat.iter 3 workoutTick
                       (fst (run (togglePause Scenario.resting)
                               Scenario.resting))))
               (Nat.iter 3 workoutTick
                  (fst (run (togglePause Scenario.resting)
                          Scenario.resting))))))
  = 6%nat.
Proof.
  pose proof (pause_freezes_and_resume_continues Scenario.resting 3 5
                eq_refl eq_refl eq_refl) as H.
  cbv zeta in H.
  destruct H as (_ & _ & _ & _ & _ & _ & _ & Hw & _).
  rewrite Hw. reflexivity.
Defined.

Lemma rest_timer_reaches_zero_after_N_ticks_example :
  restTimerCountdown
    (Nat.iter 30 restTick
       (fst (run (startRestTimer Scenario.fresh) Scenario.fresh))) = 0
  /\ isRestTimerActive
       (Nat.iter 30 restTick
          (fst (run (startRestTimer Scenario.fresh) Scenario.fresh)))
     = false.
Proof.
  assert (Hpos : 0 < 30) by lia.
  pose proof (rest_timer_reaches_zero_after_N_ticks Scenario.fresh 30
                eq_refl Hpos) as H.
  cbv zeta in H.
  destruct H as (_ & _ & _ & _ & _ & Hz & Ha & _).
  change (Z.to_nat 30) with 30%nat in Hz, Ha.
  split; [exact Hz | exact Ha].
Defined.

(** * Further properties of the screen *)

(** ** Loading *)

(** X1. Whatever the response and the flag, a load makes exactly one
    request, ends with the loading flag cleared (and, when forced, the
    refreshing flag cleared), and leaves an error message exactly when the
    fetch was rejected. A rejected fetch shows the error screen and keeps
    the workout, the progress records, the cursor, the skipped list and
    both clocks of the state before. *)
Theorem loadWorkout_never_stuck_and_fails_softly
    (fmt : string -> string) (today : string) (response : FetchResult)
    (forceRefresh : bool) (r : State) :
  let h := fst (run (loadWorkout fmt today response forceRefresh) r) in
  let events := snd (run (loadWorkout fmt today response forceRefresh) r) in
  loading h = false
  /\ (forceRefresh = true -> refreshing h = false)
  /\ (is_Some (error h) <-> response = FetchRejected)
  /\ (exists ok, events = [Call (FetchActiveWorkout forceRefresh) ok]
                 /\ (ok = false <-> response = FetchRejected))
  /\ (response = FetchRejected ->
      error h = Some loadFailedMessage
      /\ render h = ErrorScreen
      /\ workout h = workout r
      /\ exerciseProgress h = exerciseProgress r
      /\ currentExerciseIndex h = currentExerciseIndex r
      /\ skippedExercises h = skippedExercises r
      /\ isWorkoutStarted h = isWorkoutStarted r
      /\ isWorkoutCompleted h = isWorkoutCompleted r
      /\ workoutTimer h = workoutTimer r
      /\ exerciseTimer h = exerciseTimer r).
Proof.
  load_paths response forceRefresh; cbn;
    (split; [reflexivity|]);
    (split; [intros H; first [reflexivity | discriminate H]|]);
    (split; [split; intros H;
             first [ reflexivity | discriminate H
                   | exact (False_ind _ (is_Some_None H))
                   | eexists; reflexivity ]|]);
    (split; [eexists; split; [reflexivity|];
             split; intros H; first [reflexivity | discriminate H]|]);
    intros H; first [discriminate H | repeat split].
Qed.

Lemma findTodaysWorkout_nonempty (fmt : string -> string) (today : string)
    (days : list PlanDayWithBlocks) (w : PlanDayWithBlocks) :
  findTodaysWorkout fmt today days = Some w -> days <> [].
Proof. intros H ->. discriminate H. Qed.

Lemma loadWorkout_open_day (fmt : string -> string) (today : string)
    (days : list PlanDayWithBlocks) (w : PlanDayWithBlocks)
    (forceRefresh : bool) (r : State) :
  findTodaysWorkout fmt today days = Some w ->
  isComplete w = false ->
  fst (run (loadWorkout fmt today (FetchResolved (Some days)) forceRefresh) r)
  = (if forceRefresh then setRefreshing false else fun s => s)
      (setLoading false
         (setExerciseProgress
            (map (fun e => Some (initialProgress e))
               (flat_map exercises_of_block (blocks w)))
            (setWorkout (Some w)
               (setError None
                  (if forceRefresh then r else setLoading true r))))).
Proof.
  intros Hfind Hopen. unfold loadWorkout.
  destruct days as [|d0 days]; [discriminate Hfind|].
  destruct forceRefresh; load_red; rewrite Hfind, Hopen; reflexivity.
Qed.

Lemma js_get_map_Some {A B : Type} (f : A -> B) (l : list A) (i : nat) :
  js_get (map (fun a => Some (f a)) l) i = f <$> (l !! i).
Proof.
  unfold js_get. rewrite list_lookup_fmap.
  destruct (l !! i); reflexivity.
Qed.

(** X2. A load that finds today's plan day not yet complete installs it,
    and replaces the progress array by one fresh record per exercise, each
    with an empty set list and the targets of its exercise, while the
    cursor, the started flag, both clocks and the skipped list stay as they
    were. Sets logged before the load are gone: with a signed-in user
    [completeExercise()] right after the load reports No Sets Logged and
    sends no exercise log. *)
Theorem loadWorkout_reinitialises_progress
    (fmt : string -> string) (today : string)
    (days : list PlanDayWithBlocks) (w : PlanDayWithBlocks)
    (forceRefresh : bool) (r : State)
    (Hfind : findTodaysWorkout fmt today days = Some w)
    (Hopen : isComplete w = false) :
  let h := fst (run (loadWorkout fmt today (FetchResolved (Some days))
                       forceRefresh) r) in
  workout h = Some w
  /\ error h = None
  /\ length (exerciseProgress h) = length (exercises h)
  /\ (forall i ex, exercises h !! i = Some ex ->
        js_get (exerciseProgress h) i = Some (initialProgress ex))
  /\ (forall i p, js_get (exerciseProgress h) i = Some p ->
        sets p = Some [] /\ notes p = Some "" /\ isSkipped p = None)
  /\ currentExerciseIndex h = currentExerciseIndex r
  /\ isWorkoutStarted h = isWorkoutStarted r
  /\ workoutTimer h = workoutTimer r
  /\ exerciseTimer h = exerciseTimer r
  /\ skippedExercises h = skippedExercises r
  /\ (forall env e,
        currentExercise h = Some e ->
        env_user env = UserSignedIn ->
        snd (run (completeExercise env h) h)
        = [Call GetCurrentUser true; noSetsAlert]).
Proof.
  cbv zeta. rewrite (loadWorkout_open_day fmt today days w forceRefresh r Hfind Hopen).
  set (fresh := map (fun e => Some (initialProgress e))
                  (flat_map exercises_of_block (blocks w))).
  assert (Hlook : forall i ex,
            flat_map exercises_of_block (blocks w) !! i = Some ex ->
            js_get fresh i = Some (initialProgress ex)).
  { intros i ex Hi. subst fresh. rewrite js_get_map_Some. now rewrite Hi. }
  assert (Hfresh : forall i p, js_get fresh i = Some p ->
            sets p = Some [] /\ notes p = Some "" /\ isSkipped p = None).
  { intros i p Hp. subst fresh. rewrite js_get_map_Some in Hp.
    destruct (flat_map exercises_of_block (blocks w) !! i) as [ex|];
      [|discriminate Hp].
    injection Hp as <-. repeat split. }
  destruct forceRefresh; cbn.
  all: split; [reflexivity|]; split; [reflexivity|].
  all: split; [subst fresh; apply length_map|].
  all: split; [exact Hlook|]; split; [exact Hfresh|].
  all: do 5 (split; [reflexivity|]).
  all: intros env e Hcur Huser.
  all: unfold currentExercise, exercises, getFlattenedExercises in Hcur;
       cbn in Hcur.
  all: pose proof (Hlook _ _ Hcur) as Hp.
  all: destruct env as [u cl mk rf sk now tz]; cbn in Huser; subst u.
  all: unfold completeExercise, currentExercise, currentProgress,
         exercises, getFlattenedExercises; cbn.
  all: rewrite Hcur, Hp; reflexivity.
Qed.

Lemma loadWorkout_reinitialises_progress_example :
  let h := fst (run (loadWorkout Scenario.formatDateAsString Scenario.today
                       (FetchResolved (Some [Scenario.day])) false)
                  Scenario.on_last) in
  currentExerciseIndex h = 1%nat
  /\ (exists p, currentProgress Scenario.on_last = Some p
                /\ sets p = Some Scenario.one_set)
  /\ snd (run (completeExercise Scenario.online h) h)
     = [Call GetCurrentUser true; noSetsAlert].
Proof.
  pose proof (loadWorkout_reinitialises_progress Scenario.formatDateAsString
                Scenario.today [Scenario.day] Scenario.day false
                Scenario.on_last eq_refl eq_refl) as H.
  cbv zeta in H.
  destruct H as (_ & _ & _ & _ & _ & Hc & _ & _ & _ & _ & Hdone).
  cbv zeta. split; [rewrite Hc; reflexivity|].
  split; [exists (assign (UpdSets Scenario.one_set)
                         (initialProgress Scenario.plank));
          split; reflexivity|].
  exact (Hdone Scenario.online Scenario.plank eq_refl eq_refl).
Defined.

(** X3. When the response carries no plan day for today (no plan, an empty
    plan, or no day whose normalised date is today), the workout is
    cleared and the No Workout screen is shown; the progress array and the
    cursor are left as they were, and [completeExercise()] and
    [skipCurrentExercise()] then return at once without any request or
    alert. *)
Theorem loadWorkout_without_todays_day
    (fmt : string -> string) (today : string) (response : FetchResult)
    (forceRefresh : bool) (r : State)
    (Hnone : noWorkoutToday fmt today response) :
  let h := fst (run (loadWorkout fmt today response forceRefresh) r) in
  workout h = None
  /\ render h = NoWorkoutScreen
  /\ exercises h = []
  /\ exerciseProgress h = exerciseProgress r
  /\ currentExerciseIndex h = currentExerciseIndex r
  /\ isWorkoutCompleted h = isWorkoutCompleted r
  /\ (forall env, run (completeExercise env h) h = (h, []))
  /\ (forall env, run (skipCurrentExercise env h) h = (h, [])).
Proof.
  assert (Hstate :
    fst (run (loadWorkout fmt today response forceRefresh) r)
    = (if forceRefresh then setRefreshing false else fun s => s)
        (setLoading false
           (setWorkout None
              (setError None
                 (if forceRefresh then r else setLoading true r))))).
  { unfold loadWorkout.
    destruct response as [|[[|d0 days]|]];
      cbv beta iota delta [noWorkoutToday] in Hnone;
      [contradiction | | | ];
      destruct forceRefresh; load_red; rewrite ?Hnone; reflexivity. }
  cbv zeta. rewrite Hstate.
  destruct forceRefresh; cbn; repeat split.
Qed.

Lemma loadWorkout_without_todays_day_example :
  render (fst (run (loadWorkout Scenario.formatDateAsString "2024-03-10"
                      (FetchResolved (Some [Scenario.day])) false)
                 Scenario.on_last))
  = NoWorkoutScreen.
Proof.
  pose proof (loadWorkout_without_todays_day Scenario.formatDateAsString
                "2024-03-10" (FetchResolved (Some [Scenario.day])) false
                Scenario.on_last eq_refl) as H.
  cbv zeta in H. destruct H as (_ & Hr & _). exact Hr.
Defined.

(** X4. The plan day a load picks is the first one in the list whose
    normalised date equals today: every day before it has another date,
    whatever comes after it. *)
Theorem findTodaysWorkout_is_first_match
    (fmt : string -> string) (today : string)
    (days : list PlanDayWithBlocks) (w : PlanDayWithBlocks)
    (Hfind : findTodaysWorkout fmt today days = Some w) :
  exists before after,
    days = before ++ w :: after
    /\ fmt (day_date w) = today
    /\ Forall (fun d => fmt (day_date d) <> today) before.
Proof.
  revert Hfind. unfold findTodaysWorkout.
  induction days as [|d days IH]; simpl; [discriminate|].
  destruct (String.eqb (fmt (day_date d)) today) eqn:Hd.
  - intros [= ->]. exists [], days. split; [reflexivity|].
    split; [now apply String.eqb_eq | constructor].
  - intros Hrest. destruct (IH Hrest) as (before & after & -> & Hw & Hb).
    exists (d :: before), after. split; [reflexivity|].
    split; [exact Hw|]. constructor; [|exact Hb].
    now apply String.eqb_neq.
Qed.

Lemma findTodaysWorkout_is_first_match_example :
  exists before after,
    [Scenario.day_without_id; Scenario.day] = before ++ Scenario.day_without_id :: after
    /\ Scenario.formatDateAsString (day_date Scenario.day_without_id)
       = Scenario.today
    /\ Forall (fun d => Scenario.formatDateAsString (day_date d)
                        <> Scenario.today) before.
Proof.
  exact (findTodaysWorkout_is_first_match Scenario.formatDateAsString
           Scenario.today [Scenario.day_without_id; Scenario.day]
           Scenario.day_without_id eq_refl).
Defined.

(** ** Invariants of arbitrary runs *)

Lemma steps_invariant (P : State -> Prop) (fmt : string -> string)
    (ops : list Op) (s : State) :
  (forall op r, P r -> P (fst (step fmt op r))) ->
  P s -> P (fst (steps fmt ops s)).
Proof.
  intros Hstep. revert s. induction ops as [|op ops IH]; intros s Hs.
  - exact Hs.
  - rewrite fst_steps_cons. apply IH. now apply Hstep.
Qed.

(** What the effects do to the two clocks. *)
Lemma settle_clocks (r h : State) :
  (workoutTimer (settle r h) = workoutTimer h
   /\ exerciseTimer (settle r h) = exerciseTimer h)
  \/ (workoutTimer (settle r h) = 0%nat
      /\ exerciseTimer (settle r h) = 0%nat).
Proof.
  unfold settle, abandonmentEffect, syncContext, abandoned.
  destruct h as [? ? ? ? hs hc ? ? ? ? ? ? ? ? ? ? ? ? ? ? hx];
    destruct r as [? ? ? ? rs rc ? ? ? ? ? ? ? ? ? ? ? ? ? ? rx];
    destruct hs, hc, hx, rs, rc; cbn; auto.
Qed.

(** What a handler does to the completed flag and to the clocks. *)
Lemma handle_clocks (fmt : string -> string) (op : Op) (r : State) :
  let h := fst (handle fmt op r) in
  (isWorkoutCompleted r = true -> isWorkoutCompleted h = true)
  /\ ((exerciseTimer r <= workoutTimer r)%nat ->
      (exerciseTimer h <= workoutTimer h)%nat).
Proof.
  destruct op; cbn [handle].
  - load_paths response forceRefresh; cbn; split; auto.
  - rewrite onRefresh_run.
    load_paths response true; cbn; split; auto.
  - cbn. split; auto.
  - cbn. split; auto.
  - cbn. split; auto.
  - complete_paths env r; cbn; split; auto; intros; lia.
  - skip_paths env r; cbn; split; auto; intros; lia.
  - unfold startRestTimer, when.
    destruct (targetRestTime r >? 0); cbn; split; auto.
  - cbn. split; auto.
  - cbn. split; auto.
  - cbn. split; auto.
  - unfold workoutTick. destruct (clockRunning r); cbn; split; auto.
    intros; lia.
  - unfold restTick. destruct (restRunning r); [|cbn; split; auto].
    destruct (restTimerCountdown r <=? 1); cbn; split; auto.
  - cbn. split; auto.
  - cbn. split; auto.
  - destruct thenComplete; cbn; split; auto.
  - cbn. split; auto.
Qed.

Lemma step_clocks (fmt : string -> string) (op : Op) (r : State) :
  (isWorkoutCompleted r = true ->
   isWorkoutCompleted (fst (step fmt op r)) = true)
  /\ ((exerciseTimer r <= workoutTimer r)%nat ->
      (exerciseTimer (fst (step fmt op r))
       <= workoutTimer (fst (step fmt op r)))%nat).
Proof.
  pose proof (handle_clocks fmt op r) as [Hdone Hclock].
  unfold step. destruct (handle fmt op r) as [h ev]. cbn [fst] in *.
  destruct (settle_frame r h) as [Hsd _].
  split.
  - intros H. rewrite Hsd. auto.
  - intros H. specialize (Hclock H).
    destruct (settle_clocks r h) as [[-> ->]|[-> ->]]; lia.
Qed.

(** X5. The completed flag is never cleared: once the day is completed it
    stays completed through every sequence of operations, whatever the
    server answers (also a load that installs another, incomplete plan
    day), so the workout clock never runs again and the workout interface
    is never shown again. *)
Theorem completed_is_permanent
    (fmt : string -> string) (ops : list Op) (s : State)
    (Hdone : isWorkoutCompleted s = true) :
  let s' := fst (steps fmt ops s) in
  isWorkoutCompleted s' = true
  /\ workoutTick s' = s'
  /\ render s' <> WorkoutInterface.
Proof.
  assert (H : isWorkoutCompleted (fst (steps fmt ops s)) = true).
  { apply (steps_invariant (fun x => isWorkoutCompleted x = true));
      [|exact Hdone].
    intros op r Hr. now apply step_clocks. }
  cbv zeta. split; [exact H|]. split.
  - unfold workoutTick, clockRunning. rewrite H.
    now rewrite andb_false_r.
  - unfold render. rewrite H.
    destruct (loading _); [discriminate|].
    destruct (error _); [discriminate|].
    destruct (workout _); discriminate.
Qed.

Lemma completed_is_permanent_example :
  let done := fst (step Scenario.formatDateAsString
                     (OpComplete Scenario.online) Scenario.on_last) in
  isWorkoutCompleted
    (fst (steps Scenario.formatDateAsString
            [Scenario.load Scenario.day; OpStart; OpTick] done)) = true.
Proof.
  cbv zeta.
  pose proof (completed_is_permanent Scenario.formatDateAsString
                [Scenario.load Scenario.day; OpStart; OpTick]
                (fst (step Scenario.formatDateAsString
                        (OpComplete Scenario.online) Scenario.on_last))
                eq_refl) as H.
  cbv zeta in H. exact (proj1 H).
Defined.

(** X6. After any sequence of operations from the initial state the time
    on the current exercise is at most the time of the whole workout. *)
Theorem exercise_clock_within_workout_clock
    (fmt : string -> string) (ops : list Op) :
  (exerciseTimer (fst (steps fmt ops initial_state))
   <= workoutTimer (fst (steps fmt ops initial_state)))%nat.
Proof.
  apply (steps_invariant
           (fun x => (exerciseTimer x <= workoutTimer x)%nat)).
  - intros op r Hr. now apply step_clocks.
  - cbn. lia.
Qed.

(** X7. After every operation the context flag agrees with the session: a
    workout that is started and not completed is reported as in progress.
    When the flag is cleared from outside during such a workout, the
    session is reset instead of carrying on. *)
Theorem started_workout_is_in_progress
    (fmt : string -> string) (op : Op) (r : State) :
  let s := fst (step fmt op r) in
  (isWorkoutStarted s = true -> isWorkoutCompleted s = false ->
   isWorkoutInProgress s = true)
  /\ (op = OpContext false -> isWorkoutCompleted r = false ->
      isWorkoutStarted s = false /\ isWorkoutInProgress s = false).
Proof.
  cbv zeta. split.
  - intros Hs Hc.
    assert (Hq : abandoned (fst (step fmt op r)) = false).
    { unfold step. destruct (handle fmt op r) as [h ev]. apply settle_quiet. }
    unfold abandoned in Hq. rewrite Hs, Hc in Hq.
    destruct (isWorkoutInProgress _); [reflexivity | discriminate Hq].
  - intros -> Hc. unfold step. cbn.
    unfold settle, abandonmentEffect, syncContext, abandoned.
    destruct r as [? ? ? ? rs rc ? ? ? ? ? ? ? ? ? ? ? ? ? ? rx].
    cbn in *. subst rc. destruct rs; cbn; split; reflexivity.
Qed.

(** X8. The abandonment reset (the context flag cleared while the workout
    is started and not completed) stops the workout, clears the pause,
    both clocks, the cursor and the rest timer, and produces no request;
    it keeps the loaded workout, the logged progress records and the
    skipped list, so the numerator of the progress bar falls back to the
    number of skipped exercises, not to zero. *)
Theorem abandonment_resets_clocks_keeps_progress
    (fmt : string -> string) (s : State)
    (Hstarted : isWorkoutStarted s = true)
    (Hopen : isWorkoutCompleted s = false) :
  let s' := fst (step fmt (OpContext false) s) in
  snd (step fmt (OpContext false) s) = []
  /\ isWorkoutStarted s' = false
  /\ isPaused s' = false
  /\ workoutTimer s' = 0%nat
  /\ exerciseTimer s' = 0%nat
  /\ currentExerciseIndex s' = 0%nat
  /\ isRestTimerActive s' = false
  /\ restTimerCountdown s' = 0
  /\ isWorkoutInProgress s' = false
  /\ workout s' = workout s
  /\ exerciseProgress s' = exerciseProgress s
  /\ skippedExercises s' = skippedExercises s
  /\ completedAndSkippedCount s' = length (skippedExercises s).
Proof.
  unfold step. cbn.
  unfold settle, abandonmentEffect, syncContext, abandoned,
    completedAndSkippedCount.
  destruct s as [? ? ? ? rs rc ? ? ? ? ? ? ? ? ? ? ? ? ? ? rx].
  cbn in *. subst rs rc. cbn. repeat split.
Qed.

Lemma abandonment_resets_clocks_keeps_progress_example :
  let s' := fst (step Scenario.formatDateAsString (OpContext false)
                   Scenario.on_last) in
  currentExerciseIndex s' = 0%nat
  /\ js_get (exerciseProgress s') 1
     = js_get (exerciseProgress Scenario.on_last) 1.
Proof.
  pose proof (abandonment_resets_clocks_keeps_progress
                Scenario.formatDateAsString Scenario.on_last
                eq_refl eq_refl) as H.
  cbv zeta in H.
  destruct H as (_ & _ & _ & _ & _ & Hc & _ & _ & _ & _ & Hp & _).
  cbv zeta. rewrite Hp. split; [exact Hc | reflexivity].
Defined.

(** X9. In a session over a plan day with at least one exercise, as long
    as nothing has been skipped the progress percentage stays between 0 and
    100 in every reachable state. *)
Theorem progress_within_100_without_skips
    (d : PlanDayWithBlocks) (fmt : string -> string) (s : State)
    (Hvalid : valid_plan d)
    (Hreach : reachable d fmt s)
    (Hnone : skippedExercises s = []) :
  (0 <= progressPercent s)%Q /\ (progressPercent s <= 100)%Q.
Proof.
  pose proof (reachable_invariant d fmt s Hvalid Hreach)
    as (Hplan & Hle & _ & _).
  unfold progressPercent, completedAndSkippedCount. rewrite Hnone.
  cbn [length]. rewrite Nat.add_0_r.
  destruct (Nat.ltb_spec 0 (length (exercises s))) as [Hpos|Hzero].
  - destruct (exercises_of_plan d s Hplan) as [Hnil|Hcount];
      [rewrite Hnil in Hpos; cbn in Hpos; lia|].
    rewrite Hcount in *.
    set (c := currentExerciseIndex s) in *.
    set (n := exerciseCount d) in *.
    unfold Qle, Qmult, Qdiv, Qinv, inject_Z. simpl.
    destruct (Z.of_nat n) as [|pn|pn] eqn:En; try lia.
    simpl. split; nia.
  - split; [apply Qle_refl | discriminate].
Qed.

Lemma progress_within_100_without_skips_example :
  (progressPercent Scenario.on_last <= 100)%Q.
Proof.
  assert (Hvalid : valid_plan Scenario.day) by (vm_compute; lia).
  assert (Hreach : reachable Scenario.day Scenario.formatDateAsString
                     Scenario.on_last).
  { apply reachable_steps; [apply reach_initial | scenario_admissible]. }
  exact (proj2 (progress_within_100_without_skips Scenario.day
                  Scenario.formatDateAsString Scenario.on_last
                  Hvalid Hreach eq_refl)).
Defined.

(** ** Skipping *)

(** X10. [skipCurrentExercise()] asks for nothing but the skip itself and,
    on the last exercise, the day completion: it never looks up the user,
    never sends an exercise log and never refreshes the dashboard. When
    the skip request fails, the error alert is raised and the state is the
    state before with the busy flag cleared. *)
Theorem skip_sends_no_log_and_fails_cleanly (env : Env) (r : State) :
  let s' := fst (run (skipCurrentExercise env r) r) in
  let events := snd (run (skipCurrentExercise env r) r) in
  (forall c ok, In (Call c ok) events ->
     (exists wid eid, c = SkipExercise wid eid)
     \/ (exists id, c = MarkPlanDayAsComplete id /\ beforeLast r = false))
  /\ (forall wid eid, In (Call (SkipExercise wid eid) false) events ->
        s' = setIsSkippingExercise false r
        /\ events = [Call (SkipExercise wid eid) false; errorAlert_skip]).
Proof.
  skip_paths env r; cbn; split.
  all: try (intros c ok H);
       try (intros wid eid H);
       unfold workoutFinishedAlert, errorAlert_skip in *;
       repeat (destruct H as [H|H]; [try discriminate H|]);
       try contradiction.
  all: try (injection H as <- <-; eauto).
  all: try (injection H as <- <-; split; reflexivity).
  all: try (injection H as <- <-; right; eauto).
Qed.

(** X11. The local record of a skip is written before the day completion
    is requested. On the last exercise, when the skip request succeeds and
    the day-completion request fails, the exercise is already in the
    skipped list and marked as skipped, while the cursor and the completed
    flag are unchanged; a retry that fails the same way records the same
    exercise a second time. *)
Theorem skip_recorded_before_day_completion
    (env : Env) (r : State)
    (e : WorkoutBlockWithExercise) (w : PlanDayWithBlocks)
    (Hw : workout r = Some w)
    (Hcur : currentExercise r = Some e)
    (Hlast : beforeLast r = false)
    (Hid : truthy (day_id w) = true)
    (Hskip : env_skip env = true)
    (Hmark : env_markComplete env = false) :
  let s1 := fst (run (skipCurrentExercise env r) r) in
  let s2 := fst (run (skipCurrentExercise env s1) s1) in
  In errorAlert_skip (snd (run (skipCurrentExercise env r) r))
  /\ skippedExercises s1 = skippedExercises r ++ [ex_id e]
  /\ (exists p, js_get (exerciseProgress s1) (currentExerciseIndex r) = Some p
                /\ isSkipped p = Some true)
  /\ currentExerciseIndex s1 = currentExerciseIndex r
  /\ isWorkoutCompleted s1 = isWorkoutCompleted r
  /\ skippedExercises s2 = skippedExercises r ++ [ex_id e; ex_id e]
  /\ currentExerciseIndex s2 = currentExerciseIndex r.
Proof.
  assert (Hall : allProcessed r = true)
    by (apply allProcessed_on_last; [eexists; exact Hcur | exact Hlast]).
  assert (Hrun : forall x,
            workout x = Some w -> currentExercise x = Some e ->
            beforeLast x = false -> allProcessed x = true ->
            run (skipCurrentExercise env x) x
            = (setIsSkippingExercise false
                 (setExerciseProgress
                    (replaceAt (currentExerciseIndex x) markSkipped
                       (exerciseProgress x))
                    (setSkippedExercises (skippedExercises x ++ [ex_id e])
                       (setIsSkippingExercise true x))),
               [Call (SkipExercise (workoutId w) (ex_id e)) true;
                Call (MarkPlanDayAsComplete (day_id w)) false;
                errorAlert_skip])).
  { intros x Hxw Hxc Hxl Hxa.
    destruct env as [u cl mk rf sk now tz]. cbn in Hskip, Hmark.
    subst sk mk. unfold skipCurrentExercise.
    rewrite Hxc, Hxw, Hxl, Hxa, Hid. monad_red. reflexivity. }
  cbv zeta. rewrite (Hrun r Hw Hcur Hlast Hall). cbn [fst snd].
  set (s1 := setIsSkippingExercise false _).
  assert (Hall1 : allProcessed s1 = true)
    by (apply allProcessed_on_last; [eexists; exact Hcur | exact Hlast]).
  rewrite (Hrun s1 Hw Hcur Hlast Hall1). cbn [fst].
  split; [cbn; tauto|].
  split; [reflexivity|].
  split.
  { eexists. split; [apply js_get_set_eq | reflexivity]. }
  split; [reflexivity|]. split; [reflexivity|].
  split; [|reflexivity].
  cbn. rewrite <- app_assoc. reflexivity.
Qed.

Lemma skip_recorded_before_day_completion_example :
  skippedExercises
    (fst (run (skipCurrentExercise
                 (mkEnv UserSignedIn true false true true 0 (fixed_zone 0))
                 Scenario.on_last) Scenario.on_last))
  = [12].
Proof.
  pose proof (skip_recorded_before_day_completion
                (mkEnv UserSignedIn true false true true 0 (fixed_zone 0))
                Scenario.on_last Scenario.plank Scenario.day
                eq_refl eq_refl eq_refl eq_refl eq_refl eq_refl) as H.
  cbv zeta in H. destruct H as (_ & Hs & _). rewrite Hs. reflexivity.
Defined.



(** ** The rest timer, paused and reset *)

Lemma restTicks_paused (k : nat) (s : State) :
  isRestTimerPaused s = true -> Nat.iter k restTick s = s.
Proof.
  intros Hp. apply restTicks_idle. unfold restRunning. rewrite Hp.
  now rewrite andb_false_r.
Qed.

Lemma restTicks_to_zero (s : State) :
  isRestTimerActive s = true ->
  isRestTimerPaused s = false ->
  0 < restTimerCountdown s ->
  let s' := Nat.iter (Z.to_nat (restTimerCountdown s)) restTick s in
  restTimerCountdown s' = 0 /\ isRestTimerActive s' = false
  /\ showRestCompleteModal s' = true.
Proof.
  intros Ha Hp Hc. cbv zeta.
  replace (Z.to_nat (restTimerCountdown s))
    with (S (Z.to_nat (restTimerCountdown s - 1))) by lia.
  simpl.
  destruct (restTicks_counting (Z.to_nat (restTimerCountdown s - 1)) s Ha Hp)
    as (H1 & H2 & H3 & _); [lia|].
  destruct (restTick_last _ H2 H3) as (Hz & Hi & _ & Hm); [lia|].
  auto.
Qed.

(** X13. Pausing the rest timer freezes the countdown and resuming loses
    nothing: after [j < N] ticks of a countdown started from [N], a pause,
    any number of ticks while paused and a resume, the countdown shows
    [N - j], and exactly [N - j] further ticks bring it to zero and raise
    the rest-complete modal. *)
Theorem rest_pause_freezes_and_resume_continues
    (r : State) (N : Z) (j k : nat)
    (Htarget : targetRestTime r = N)
    (Hj : Z.of_nat j < N) :
  let counting := Nat.iter j restTick (fst (run (startRestTimer r) r)) in
  let paused := fst (run (toggleRestTimerPause counting) counting) in
  let frozen := Nat.iter k restTick paused in
  let resumed := fst (run (toggleRestTimerPause frozen) frozen) in
  let finished := Nat.iter (Z.to_nat (N - Z.of_nat j)) restTick resumed in
  frozen = paused
  /\ restTimerCountdown frozen = N - Z.of_nat j
  /\ isRestTimerActive frozen = true
  /\ restTimerCountdown resumed = N - Z.of_nat j
  /\ restTimerCountdown finished = 0
  /\ isRestTimerActive finished = false
  /\ showRestCompleteModal finished = true.
Proof.
  intros counting paused frozen resumed finished.
  assert (Hpos : 0 < N) by lia.
  assert (Hs : fst (run (startRestTimer r) r)
               = setIsRestTimerPaused false
                   (setIsRestTimerActive true (setRestTimerCountdown N r))).
  { unfold startRestTimer. rewrite Htarget.
    destruct (Z.gtb_spec N 0) as [_|Hbad]; [reflexivity | lia]. }
  destruct (restTicks_counting j (fst (run (startRestTimer r) r)))
    as (Hc & Ha & Hp & _);
    [rewrite Hs; reflexivity | rewrite Hs; reflexivity
     | rewrite Hs; cbn; exact Hj |].
  fold counting in Hc, Ha, Hp.
  rewrite Hs in Hc. cbn in Hc.
  assert (Hpp : isRestTimerPaused paused = true)
    by (subst paused; cbn; now rewrite Hp).
  assert (Hf : frozen = paused) by (subst frozen; now apply restTicks_paused).
  assert (Hrc : restTimerCountdown resumed = N - Z.of_nat j)
    by (subst resumed; rewrite Hf; subst paused; cbn; exact Hc).
  assert (Hra : isRestTimerActive resumed = true)
    by (subst resumed; rewrite Hf; subst paused; cbn; exact Ha).
  assert (Hrp : isRestTimerPaused resumed = false)
    by (subst resumed; rewrite Hf; subst paused; cbn; now rewrite Hp).
  destruct (restTicks_to_zero resumed Hra Hrp) as (Hz & Hi & Hm);
    [rewrite Hrc; lia|].
  rewrite Hrc in Hz, Hi, Hm. fold finished in Hz, Hi, Hm.
  split; [exact Hf|].
  split; [rewrite Hf; subst paused; cbn; exact Hc|].
  split; [rewrite Hf; subst paused; cbn; exact Ha|].
  split; [exact Hrc|]. split; [exact Hz|]. split; [exact Hi | exact Hm].
Qed.

Lemma rest_pause_freezes_and_resume_continues_example :
  let counting := Nat.iter 10 restTick
                    (fst (run (startRestTimer Scenario.fresh)
                            Scenario.fresh)) in
  let paused := fst (run (toggleRestTimerPause counting) counting) in
  let frozen := Nat.iter 7 restTick paused in
  let resumed := fst (run (toggleRestTimerPause frozen) frozen) in
  restTimerCountdown frozen = 20
  /\ restTimerCountdown (Nat.iter 20 restTick resumed) = 0.
Proof.
  assert (Hj : Z.of_nat 10 < 30) by lia.
  pose proof (rest_pause_freezes_and_resume_continues Scenario.fresh 30
                10 7 eq_refl Hj) as H.
  cbv zeta in H. destruct H as (_ & Hc & _ & _ & Hz & _).
  cbv zeta. split; [exact Hc | exact Hz].
Defined.

(** X14. [resetRestTimer()] during a countdown restores the full target
    and clears the pause without touching the active flag: after [j < N]
    ticks and a reset, the countdown shows [N] again and exactly [N] ticks
    bring it to zero. *)
Theorem rest_reset_restores_full_countdown
    (r : State) (N : Z) (j : nat)
    (Htarget : targetRestTime r = N)
    (Hj : Z.of_nat j < N) :
  let counting := Nat.iter j restTick (fst (run (startRestTimer r) r)) in
  let reset := fst (run (resetRestTimer counting) counting) in
  let finished := Nat.iter (Z.to_nat N) restTick reset in
  restTimerCountdown counting = N - Z.of_nat j
  /\ restTimerCountdown reset = N
  /\ isRestTimerActive reset = true
  /\ isRestTimerPaused reset = false
  /\ restTimerCountdown finished = 0
  /\ isRestTimerActive finished = false
  /\ showRestCompleteModal finished = true.
Proof.
  intros counting reset finished.
  assert (Hpos : 0 < N) by lia.
  assert (Hs : fst (run (startRestTimer r) r)
               = setIsRestTimerPaused false
                   (setIsRestTimerActive true (setRestTimerCountdown N r))).
  { unfold startRestTimer. rewrite Htarget.
    destruct (Z.gtb_spec N 0) as [_|Hbad]; [reflexivity | lia]. }
  assert (Hframe : forall n x, targetRestTime (Nat.iter n restTick x)
                               = targetRestTime x).
  { intros n x. induction n as [|n IH]; [reflexivity|]. simpl.
    rewrite <- IH. unfold restTick.
    destruct (restRunning _); [|reflexivity].
    destruct (restTimerCountdown _ <=? 1); reflexivity. }
  destruct (restTicks_counting j (fst (run (startRestTimer r) r)))
    as (Hc & Ha & Hp & _);
    [rewrite Hs; reflexivity | rewrite Hs; reflexivity
     | rewrite Hs; cbn; exact Hj |].
  fold counting in Hc, Ha, Hp. rewrite Hs in Hc. cbn in Hc.
  assert (Ht : targetRestTime counting = N).
  { subst counting. rewrite Hframe, Hs. exact Htarget. }
  assert (Hrc : restTimerCountdown reset = N)
    by (subst reset; cbn; exact Ht).
  assert (Hra : isRestTimerActive reset = true)
    by (subst reset; cbn; exact Ha).
  assert (Hrp : isRestTimerPaused reset = false)
    by (subst reset; reflexivity).
  destruct (restTicks_to_zero reset Hra Hrp) as (Hz & Hi & Hm);
    [rewrite Hrc; lia|].
  rewrite Hrc in Hz, Hi, Hm. fold finished in Hz, Hi, Hm.
  repeat split; assumption.
Qed.

Lemma rest_reset_restores_full_countdown_example :
  let counting := Nat.iter 10 restTick
                    (fst (run (startRestTimer Scenario.fresh)
                            Scenario.fresh)) in
  restTimerCountdown (fst (run (resetRestTimer counting) counting)) = 30.
Proof.
  assert (Hj : Z.of_nat 10 < 30) by lia.
  pose proof (rest_reset_restores_full_countdown Scenario.fresh 30 10
                eq_refl Hj) as H.
  cbv zeta in H. destruct H as (_ & Hc & _). exact Hc.
Defined.

(** ** formatTime *)

Lemma string_length_append (s t : string) :
  String.length (String.append s t)
  = (String.length s + String.length t)%nat.
Proof. induction s as [|c s IH]; simpl; [reflexivity | now rewrite IH]. Qed.

Lemma string_append_inj (s1 s2 t1 t2 : string) :
  String.append s1 t1 = String.append s2 t2 ->
  String.length t1 = String.length t2 ->
  s1 = s2 /\ t1 = t2.
Proof.
  revert s2. induction s1 as [|c s1 IH]; intros [|c2 s2] Heq Hlen.
  - split; [reflexivity | exact Heq].
  - exfalso. apply (f_equal String.length) in Heq.
    rewrite !string_length_append in Heq. simpl in Heq. lia.
  - exfalso. apply (f_equal String.length) in Heq.
    rewrite !string_length_append in Heq. simpl in Heq. lia.
  - simpl in Heq. injection Heq as -> Heq.
    destruct (IH s2 Heq Hlen) as [-> ->]. auto.
Qed.

Lemma seconds_field_roundtrip (n : nat) :
  (n < 60)%nat ->
  parse_two_digits (padStart 2 "0"%char (pretty (Z.of_nat n)))
  = Some (Z.of_nat n).
Proof.
  intros Hn.
  do 60 (destruct n as [|n]; [vm_compute; reflexivity|]). lia.
Qed.

Lemma parse_two_digits_length (s : string) (v : Z) :
  parse_two_digits s = Some v -> String.length s = 2%nat.
Proof.
  destruct s as [|a [|b [|c s]]]; simpl; intros H;
    first [discriminate H | reflexivity].
Qed.

(** X15. For non-negative whole seconds, [formatTime] writes the minutes,
    a colon and exactly two characters of seconds; reading the two
    characters back gives the seconds modulo 60, and two different
    durations are never displayed as the same text. *)
Theorem formatTime_two_digit_seconds_and_injective
    (a b : Z) (Ha : 0 <= a) (Hb : 0 <= b) :
  (exists field,
      formatTime a
      = String.append (pretty (a / 60)) (String.append ":" field)
      /\ String.length field = 2%nat
      /\ parse_two_digits field = Some (a mod 60))
  /\ (formatTime a = formatTime b -> a = b).
Proof.
  assert (Hfield : forall x, 0 <= x ->
            parse_two_digits (padStart 2 "0"%char (pretty (Z.rem x 60)))
            = Some (x mod 60)).
  { intros x Hx. rewrite Z.rem_mod_nonneg by lia.
    pose proof (Z.mod_pos_bound x 60 ltac:(lia)) as Hm.
    rewrite <- (Z2Nat.id (x mod 60)) by lia.
    apply seconds_field_roundtrip. lia. }
  split.
  - eexists. split; [reflexivity|].
    split; [apply (parse_two_digits_length _ _ (Hfield a Ha))|].
    exact (Hfield a Ha).
  - unfold formatTime. cbv zeta. intros Heq.
    pose proof (Hfield a Ha) as Hpa. pose proof (Hfield b Hb) as Hpb.
    apply string_append_inj in Heq.
    + destruct Heq as [Hm Hs]. apply (inj (String.append ":")) in Hs.
      apply (inj pretty) in Hm.
      rewrite Hs in Hpa. rewrite Hpa in Hpb. injection Hpb as Hmod.
      rewrite (Z.div_mod a 60) by lia. rewrite (Z.div_mod b 60) by lia.
      congruence.
    + rewrite !string_length_append.
      rewrite (parse_two_digits_length _ _ Hpa).
      now rewrite (parse_two_digits_length _ _ Hpb).
Qed.

Lemma formatTime_two_digit_seconds_and_injective_example :
  formatTime 125 = "2:05" /\ (formatTime 125 = formatTime 65 -> 125 = 65).
Proof.
  assert (Ha : 0 <= 125) by lia. assert (Hb : 0 <= 65) by lia.
  destruct (formatTime_two_digit_seconds_and_injective 125 65 Ha Hb)
    as [_ Hinj].
  split; [vm_compute; reflexivity | exact Hinj].
Defined.

(** ** The current block and the overview *)

Lemma find_exists {A : Type} (p : A -> bool) (l : list A) (x : A) :
  In x l -> p x = true -> exists y, List.find p l = Some y.
Proof.
  induction l as [|a l IH]; simpl; [contradiction|].
  intros [->|Hin] Hp.
  - rewrite Hp. eauto.
  - destruct (p a); eauto.
Qed.

Lemma same_id_same_exercise (l : list WorkoutBlockWithExercise)
    (x y : WorkoutBlockWithExercise) :
  NoDup (map ex_id l) -> In x l -> In y l -> ex_id x = ex_id y -> x = y.
Proof.
  intros Hnd Hx Hy Hid.
  apply list_elem_of_In, list_elem_of_lookup in Hx.
  apply list_elem_of_In, list_elem_of_lookup in Hy.
  destruct Hx as [i Hi]. destruct Hy as [j Hj].
  assert (Hi' : map ex_id l !! i = Some (ex_id x))
    by (rewrite list_lookup_fmap, Hi; reflexivity).
  assert (Hj' : map ex_id l !! j = Some (ex_id x))
    by (rewrite list_lookup_fmap, Hj, Hid; reflexivity).
  pose proof (NoDup_lookup _ _ _ _ Hnd Hi' Hj') as ->.
  congruence.
Qed.

(** X16. Whenever there is a current exercise, [getCurrentBlock] finds a
    block of the loaded workout, and that block has an exercise with the id
    of the current exercise; when the ids of the exercises of the day are
    pairwise different, it is the block that contains the current exercise
    itself. Without a current exercise there is no current block. *)
Theorem getCurrentBlock_contains_current
    (s : State) (e : WorkoutBlockWithExercise)
    (Hcur : currentExercise s = Some e) :
  exists w b,
    workout s = Some w
    /\ getCurrentBlock s = Some b
    /\ In b (blocks w)
    /\ (exists ex, In ex (exercises_of_block b) /\ ex_id ex = ex_id e)
    /\ (NoDup (map ex_id (exercises s)) -> In e (exercises_of_block b)).
Proof.
  unfold currentExercise, exercises, getFlattenedExercises in Hcur.
  destruct (workout s) as [w|] eqn:Hw; [|discriminate Hcur].
  assert (Hin : In e (flat_map exercises_of_block (blocks w))).
  { apply list_elem_of_In, list_elem_of_lookup. eauto. }
  pose proof Hin as Hflat.
  apply in_flat_map in Hin. destruct Hin as (b0 & Hb0 & He0).
  set (p := fun block : WorkoutBlockWithExercises =>
              existsb (fun ex => ex_id ex =? ex_id e)
                (exercises_of_block block)).
  assert (Hp0 : p b0 = true).
  { subst p. cbn. apply existsb_exists. exists e.
    split; [exact He0 | apply Z.eqb_refl]. }
  destruct (find_exists p (blocks w) b0 Hb0 Hp0) as [b Hb].
  exists w, b. split; [reflexivity|].
  assert (Hget : getCurrentBlock s = Some b).
  { unfold getCurrentBlock, currentExercise, exercises,
      getFlattenedExercises. rewrite Hw, Hcur. exact Hb. }
  apply find_some in Hb. destruct Hb as [Hbin Hpb].
  subst p. cbn in Hpb. apply existsb_exists in Hpb.
  destruct Hpb as (ex & Hex & Hid). apply Z.eqb_eq in Hid.
  split; [exact Hget|]. split; [exact Hbin|].
  split; [exists ex; auto|].
  intros Hnd.
  assert (Hexflat : In ex (flat_map exercises_of_block (blocks w)))
    by (apply in_flat_map; eauto).
  unfold exercises, getFlattenedExercises in Hnd. rewrite Hw in Hnd.
  rewrite <- (same_id_same_exercise _ ex e Hnd Hexflat Hflat Hid).
  exact Hex.
Qed.

Lemma getCurrentBlock_contains_current_example :
  exists w b,
    workout Scenario.on_last = Some w
    /\ getCurrentBlock Scenario.on_last = Some b
    /\ In b (blocks w)
    /\ (exists ex, In ex (exercises_of_block b)
                   /\ ex_id ex = ex_id Scenario.plank)
    /\ (NoDup (map ex_id (exercises Scenario.on_last)) ->
        In Scenario.plank (exercises_of_block b)).
Proof.
  exact (getCurrentBlock_contains_current Scenario.on_last Scenario.plank
           eq_refl).
Defined.

Lemma findIndex_from_first {A : Type} (p : A -> bool) (l : list A)
    (i : nat) (x : A) (offset : Z) :
  l !! i = Some x -> p x = true ->
  (forall j y, (j < i)%nat -> l !! j = Some y -> p y = false) ->
  findIndex_from p l offset = offset + Z.of_nat i.
Proof.
  revert i offset. induction l as [|a l IH]; intros i offset Hi Hp Hbefore.
  - discriminate Hi.
  - destruct i as [|i]; simpl in *.
    + injection Hi as ->. rewrite Hp. lia.
    + rewrite (Hbefore 0%nat a) by (lia || reflexivity).
      rewrite (IH i (offset + 1) Hi Hp).
      * lia.
      * intros j y Hj Hy. apply (Hbefore (S j) y); [lia | exact Hy].
Qed.

(** X17. When the ids of the exercises of the day are pairwise different,
    the global index of the overview row of the exercise at position [i] is
    [i]: the row is shown as completed exactly when [i] is before the
    cursor and as current exactly when [i] is the cursor, so that at most
    one row is current; a row that is not skipped shows the check mark, the
    play icon or the number [i + 1] accordingly. *)
Theorem overview_row_index_is_position
    (s : State) (i : nat) (ex : WorkoutBlockWithExercise)
    (Hunique : NoDup (map ex_id (exercises s)))
    (Hi : exercises s !! i = Some ex) :
  globalIndex s ex = Z.of_nat i
  /\ rowIsCompleted s ex = (i <? currentExerciseIndex s)%nat
  /\ rowIsCurrent s ex = (i =? currentExerciseIndex s)%nat
  /\ (rowIsSkipped s ex = false ->
      rowIcon s ex
      = if (i <? currentExerciseIndex s)%nat then CheckIcon
        else if (i =? currentExerciseIndex s)%nat then PlayIcon
        else NumberLabel (Z.of_nat i + 1)).
Proof.
  assert (Hidx : globalIndex s ex = Z.of_nat i).
  { unfold globalIndex, findIndex.
    rewrite (findIndex_from_first _ (exercises s) i ex 0 Hi);
      [lia | apply Z.eqb_refl |].
    intros j y Hj Hy. apply Z.eqb_neq. intros Hid.
    assert (Hi' : map ex_id (exercises s) !! i = Some (ex_id ex))
      by (rewrite list_lookup_fmap, Hi; reflexivity).
    assert (Hj' : map ex_id (exercises s) !! j = Some (ex_id ex))
      by (rewrite list_lookup_fmap, Hy; simpl; congruence).
    pose proof (NoDup_lookup _ _ _ _ Hunique Hi' Hj'). lia. }
  assert (Hdone : rowIsCompleted s ex = (i <? currentExerciseIndex s)%nat).
  { unfold rowIsCompleted. rewrite Hidx.
    destruct (Nat.ltb_spec i (currentExerciseIndex s));
      [apply Z.ltb_lt | apply Z.ltb_ge]; lia. }
  assert (Hnow : rowIsCurrent s ex = (i =? currentExerciseIndex s)%nat).
  { unfold rowIsCurrent. rewrite Hidx.
    destruct (Nat.eqb_spec i (currentExerciseIndex s));
      [apply Z.eqb_eq | apply Z.eqb_neq]; lia. }
  split; [exact Hidx|]. split; [exact Hdone|]. split; [exact Hnow|].
  intros Hskip. unfold rowIcon. rewrite Hskip, Hdone, Hnow, Hidx.
  reflexivity.
Qed.

Lemma overview_row_index_is_position_example :
  rowIcon Scenario.on_last Scenario.squat = CheckIcon
  /\ rowIcon Scenario.on_last Scenario.plank = PlayIcon.
Proof.
  assert (Hunique : NoDup (map ex_id (exercises Scenario.on_last))).
  { apply (bool_decide_unpack _). vm_compute. exact I. }
  destruct (overview_row_index_is_position Scenario.on_last 0
              Scenario.squat Hunique eq_refl) as (_ & _ & _ & H0).
  destruct (overview_row_index_is_position Scenario.on_last 1
              Scenario.plank Hunique eq_refl) as (_ & _ & _ & H1).
  split; [exact (H0 eq_refl) | exact (H1 eq_refl)].
Defined.

(** ** The refresh range and the local day *)





(** Across the change to daylight saving the range end keeps the local
    time of day: from 01:30 local time on 2024-03-27 the end is 01:30 local
    time on 2024-04-03, which is 23:30 UTC on 2024-04-02. *)
Lemma refreshRange_across_daylight_saving :
  refreshRange
    (mkEnv UserSignedIn true true true true 1711499400000
       Scenario.daylight_zone)
  = RefreshDashboard "2024-02-26" "2024-04-02"
  /\ local_date_in Scenario.daylight_zone
       (setDate_relative Scenario.daylight_zone 1711499400000 7)
     = "2024-04-03".
Proof. split; vm_compute; reflexivity. Qed.

(** ** Completing the exercises one after the other *)

Lemma settle_same_flags (r h : State) :
  isWorkoutStarted h = isWorkoutStarted r ->
  isWorkoutCompleted h = isWorkoutCompleted r ->
  abandoned h = false ->
  settle r h = h.
Proof.
  unfold settle, abandonmentEffect, syncContext, abandoned.
  destruct h as [? ? ? ? hs hc ? ? ? ? ? ? ? ? ? ? ? ? ? ? hx];
    destruct r as [? ? ? ? rs rc ? ? ? ? ? ? ? ? ? ? ? ? ? ? rx].
  cbn. intros -> -> Hq.
  destruct rs, rc, hx; first [discriminate Hq | reflexivity].
Qed.

Lemma settle_after_completion (r h : State) :
  isWorkoutCompleted r = false ->
  isWorkoutCompleted h = true ->
  isWorkoutInProgress h = false ->
  settle r h = h.
Proof.
  unfold settle, abandonmentEffect, syncContext, abandoned.
  destruct h as [? ? ? ? hs hc ? ? ? ? ? ? ? ? ? ? ? ? ? ? hx];
    destruct r as [? ? ? ? rs rc ? ? ? ? ? ? ? ? ? ? ? ? ? ? rx].
  cbn. intros -> -> ->. destruct hs, rs; reflexivity.
Qed.

Lemma steps_app (fmt : string -> string) (ops1 ops2 : list Op) (s : State) :
  steps fmt (ops1 ++ ops2) s
  = (fst (steps fmt ops2 (fst (steps fmt ops1 s))),
     snd (steps fmt ops1 s) ++ snd (steps fmt ops2 (fst (steps fmt ops1 s)))).
Proof.
  revert s. induction ops1 as [|op ops1 IH]; intros s.
  - simpl. now destruct (steps fmt ops2 s).
  - simpl. destruct (step fmt op s) as [s1 e1]. rewrite IH.
    destruct (steps fmt ops1 s1) as [s2 e2]. simpl.
    now rewrite app_assoc.
Qed.

Lemma steps_pair (fmt : string -> string) (a b : Op) (s : State) :
  steps fmt [a; b] s
  = (fst (step fmt b (fst (step fmt a s))),
     snd (step fmt a s) ++ snd (step fmt b (fst (step fmt a s)))).
Proof.
  simpl. destruct (step fmt a s) as [s1 e1]. simpl.
  destruct (step fmt b s1) as [s2 e2]. simpl. now rewrite app_nil_r.
Qed.

Lemma dayCompletionRequests_app (e1 e2 : list Event) :
  dayCompletionRequests (e1 ++ e2)
  = (dayCompletionRequests e1 + dayCompletionRequests e2)%nat.
Proof.
  unfold dayCompletionRequests. now rewrite List.filter_app, length_app.
Qed.

Lemma exerciseLogRequests_app (e1 e2 : list Event) :
  exerciseLogRequests (e1 ++ e2)
  = (exerciseLogRequests e1 + exerciseLogRequests e2)%nat.
Proof.
  unfold exerciseLogRequests. now rewrite List.filter_app, length_app.
Qed.

(** The state in which the sets have just been logged on the current
    exercise. *)
Lemma step_log_sets (fmt : string -> string) (logged : list ExerciseSet)
    (s : State) :
  abandoned s = false ->
  step fmt (OpUpdateProgress (UpdSets logged)) s
  = (setExerciseProgress
       (replaceAt (currentExerciseIndex s) (assign (UpdSets logged))
          (exerciseProgress s)) s, []).
Proof.
  intros Hq. unfold step. cbn. f_equal.
  apply settle_same_flags; [reflexivity | reflexivity | exact Hq].
Qed.

Lemma step_complete_next (fmt : string -> string) (env : Env) (x : State)
    (e : WorkoutBlockWithExercise) (p : ExerciseProgress)
    (st : ExerciseSet) (l : list ExerciseSet) :
  currentExercise x = Some e ->
  currentProgress x = Some p ->
  sets p = Some (st :: l) ->
  beforeLast x = true ->
  abandoned x = false ->
  env_user env = UserSignedIn ->
  env_createLog env = true ->
  step fmt (OpComplete env) x
  = (setIsCompletingExercise false
       (setShowCompleteModal false
          (setExerciseTimer 0%nat
             (setCurrentExerciseIndex (S (currentExerciseIndex x))
                (setIsCompletingExercise true x)))),
     [Call GetCurrentUser true;
      Call (CreateExerciseLog
              {| planDayExerciseId := ex_id e;
                 log_sets := st :: l;
                 durationCompleted := duration p;
                 log_isComplete := true;
                 timeTaken := exerciseTimer x;
                 log_notes := notes p |}) true;
      ScrollToTop]).
Proof.
  intros Hcur Hprog Hsets Hbl Hq Hu Hcl.
  destruct env as [u cl mk rf sk now tz]. cbn in Hu, Hcl. subst u cl.
  unfold step. cbn [handle]. unfold completeExercise.
  rewrite Hcur, Hprog, Hsets, Hbl. monad_red.
  f_equal. apply settle_same_flags; [reflexivity | reflexivity | exact Hq].
Qed.

Lemma step_complete_last (fmt : string -> string) (env : Env) (x : State)
    (e : WorkoutBlockWithExercise) (p : ExerciseProgress)
    (w : PlanDayWithBlocks) (st : ExerciseSet) (l : list ExerciseSet) :
  workout x = Some w ->
  currentExercise x = Some e ->
  currentProgress x = Some p ->
  sets p = Some (st :: l) ->
  beforeLast x = false ->
  truthy (day_id w) = true ->
  isWorkoutCompleted x = false ->
  env_user env = UserSignedIn ->
  env_createLog env = true ->
  env_markComplete env = true ->
  env_refresh env = true ->
  step fmt (OpComplete env) x
  = (setIsCompletingExercise false
       (setShowCompleteModal false
          (setIsWorkoutInProgress false
             (setIsWorkoutCompleted true
                (setCurrentExerciseIndex (length (exercises x))
                   (setIsCompletingExercise true x))))),
     [Call GetCurrentUser true;
      Call (CreateExerciseLog
              {| planDayExerciseId := ex_id e;
                 log_sets := st :: l;
                 durationCompleted := duration p;
                 log_isComplete := true;
                 timeTaken := exerciseTimer x;
                 log_notes := notes p |}) true;
      Call (MarkPlanDayAsComplete (day_id w)) true;
      Call (refreshRange env) true;
      workoutCompleteAlert]).
Proof.
  intros Hw Hcur Hprog Hsets Hbl Hid Hopen Hu Hcl Hmk Hrf.
  destruct env as [u cl mk rf sk now tz]. cbn in Hu, Hcl, Hmk, Hrf.
  subst u cl mk rf.
  unfold step. cbn [handle]. unfold completeExercise.
  rewrite Hcur, Hprog, Hsets, Hbl, Hw, Hid. monad_red.
  f_equal. apply settle_after_completion; [exact Hopen | reflexivity..].
Qed.

Lemma beforeLast_current (s : State) :
  (currentExerciseIndex s < length (exercises s))%nat ->
  is_Some (currentExercise s).
Proof. intros H. unfold currentExercise. now apply lookup_lt_is_Some. Qed.

Lemma logAndComplete_next (fmt : string -> string) (env : Env)
    (st : ExerciseSet) (l : list ExerciseSet) (s : State) :
  (S (currentExerciseIndex s) < length (exercises s))%nat ->
  abandoned s = false ->
  env_user env = UserSignedIn ->
  env_createLog env = true ->
  exists s1 events,
    steps fmt (logAndComplete env (st :: l)) s = (s1, events)
    /\ workout s1 = workout s
    /\ isWorkoutCompleted s1 = isWorkoutCompleted s
    /\ abandoned s1 = abandoned s
    /\ currentExerciseIndex s1 = S (currentExerciseIndex s)
    /\ exerciseLogRequests events = 1%nat
    /\ dayCompletionRequests events = 0%nat.
Proof.
  intros Hlt Hquiet Huser Hlog. unfold logAndComplete.
  rewrite steps_pair, step_log_sets by exact Hquiet. cbn [fst snd].
  set (x := setExerciseProgress _ s).
  destruct (beforeLast_current s ltac:(lia)) as [e He].
  assert (Hbl : beforeLast x = true).
  { unfold beforeLast. apply Z.ltb_lt.
    change (exercises x) with (exercises s).
    change (currentExerciseIndex x) with (currentExerciseIndex s). lia. }
  rewrite (step_complete_next fmt env x e
             (assign (UpdSets (st :: l))
                (spread (js_get (exerciseProgress s)
                           (currentExerciseIndex s))))
             st l He (js_get_set_eq _ _ _) eq_refl Hbl Hquiet Huser Hlog).
  cbn [fst snd app]. eexists. eexists. split; [reflexivity|].
  repeat split.
Qed.

Lemma logAndComplete_last (fmt : string -> string) (env : Env)
    (w : PlanDayWithBlocks) (st : ExerciseSet) (l : list ExerciseSet)
    (s : State) :
  workout s = Some w ->
  truthy (day_id w) = true ->
  isWorkoutCompleted s = false ->
  abandoned s = false ->
  S (currentExerciseIndex s) = length (exercises s) ->
  env_user env = UserSignedIn ->
  env_createLog env = true ->
  env_markComplete env = true ->
  env_refresh env = true ->
  exists s1 events,
    steps fmt (logAndComplete env (st :: l)) s = (s1, events)
    /\ workout s1 = workout s
    /\ isWorkoutCompleted s1 = true
    /\ currentExerciseIndex s1 = length (exercises s)
    /\ exerciseLogRequests events = 1%nat
    /\ dayCompletionRequests events = 1%nat.
Proof.
  intros Hw Hid Hopen Hquiet Hlast Huser Hlog Hmark Hrefresh.
  unfold logAndComplete.
  rewrite steps_pair, step_log_sets by exact Hquiet. cbn [fst snd].
  set (x := setExerciseProgress _ s).
  destruct (beforeLast_current s ltac:(lia)) as [e He].
  assert (Hbl : beforeLast x = false).
  { unfold beforeLast. apply Z.ltb_ge.
    change (exercises x) with (exercises s).
    change (currentExerciseIndex x) with (currentExerciseIndex s). lia. }
  rewrite (step_complete_last fmt env x e
             (assign (UpdSets (st :: l))
                (spread (js_get (exerciseProgress s)
                           (currentExerciseIndex s))))
             w st l Hw He (js_get_set_eq _ _ _) eq_refl Hbl Hid Hopen
             Huser Hlog Hmark Hrefresh).
  cbn [fst snd app]. eexists. eexists. split; [reflexivity|].
  repeat split.
Qed.

(** X19. In a session that is not completed, with the cursor [k + 1]
    exercises before the end of a plan day whose id is not 0, a signed-in
    user and a server that accepts every request: logging a non-empty set
    list and completing, [k + 1] times in a row, walks through all the
    remaining exercises. The day ends completed with the cursor at the
    exercise count, [k + 1] exercise logs have been sent, one per exercise,
    and the day-completion request has been sent exactly once. *)
Theorem completing_remaining_exercises_finishes_day
    (fmt : string -> string) (env : Env) (w : PlanDayWithBlocks)
    (st : ExerciseSet) (l : list ExerciseSet) (k : nat) (s : State)
    (Hw : workout s = Some w)
    (Hid : truthy (day_id w) = true)
    (Hopen : isWorkoutCompleted s = false)
    (Hquiet : abandoned s = false)
    (Hleft : (currentExerciseIndex s + S k)%nat = length (exercises s))
    (Huser : env_user env = UserSignedIn)
    (Hlog : env_createLog env = true)
    (Hmark : env_markComplete env = true)
    (Hrefresh : env_refresh env = true) :
  let result :=
    steps fmt (concat (replicate (S k) (logAndComplete env (st :: l)))) s in
  isWorkoutCompleted (fst result) = true
  /\ currentExerciseIndex (fst result) = length (exercises s)
  /\ workout (fst result) = Some w
  /\ exerciseLogRequests (snd result) = S k
  /\ dayCompletionRequests (snd result) = 1%nat.
Proof.
  cbv zeta. revert s Hw Hopen Hquiet Hleft.
  induction k as [|k IH]; intros s Hw Hopen Hquiet Hleft.
  - (* the last exercise *)
    cbn [replicate concat]. rewrite app_nil_r.
    destruct (logAndComplete_last fmt env w st l s Hw Hid Hopen Hquiet
                ltac:(lia) Huser Hlog Hmark Hrefresh)
      as (s1 & events & -> & Hw1 & Hd & Hc & Hl & Hm).
    cbn [fst snd]. rewrite Hw1. auto.
  - (* an exercise before the last *)
    change (concat (replicate (S (S k)) (logAndComplete env (st :: l))))
      with (logAndComplete env (st :: l)
            ++ concat (replicate (S k) (logAndComplete env (st :: l)))).
    rewrite steps_app.
    destruct (logAndComplete_next fmt env st l s ltac:(lia) Hquiet
                Huser Hlog)
      as (s1 & events & -> & Hw1 & Hd1 & Hq1 & Hc1 & Hl1 & Hm1).
    cbn [fst snd].
    assert (Hexs : exercises s1 = exercises s)
      by (unfold exercises, getFlattenedExercises; now rewrite Hw1).
    destruct (IH s1) as (Hd & Hc & Hw2 & Hl & Hm).
    + now rewrite Hw1.
    + now rewrite Hd1.
    + now rewrite Hq1.
    + rewrite Hexs, Hc1. lia.
    + rewrite exerciseLogRequests_app, dayCompletionRequests_app.
      rewrite Hl1, Hm1, Hl, Hm, Hc, Hexs. auto.
Qed.

Lemma completing_remaining_exercises_finishes_day_example :
  let result :=
    steps Scenario.formatDateAsString
      (concat (replicate 2 (logAndComplete Scenario.online Scenario.one_set)))
      Scenario.fresh in
  isWorkoutCompleted (fst result) = true
  /\ exerciseLogRequests (snd result) = 2%nat
  /\ dayCompletionRequests (snd result) = 1%nat.
Proof.
  pose proof (completing_remaining_exercises_finishes_day
                Scenario.formatDateAsString Scenario.online Scenario.day
                (mkSet 10 50 true) [] 1 Scenario.fresh
                eq_refl eq_refl eq_refl eq_refl eq_refl
                eq_refl eq_refl eq_refl eq_refl) as H.
  cbv zeta in H. destruct H as (Hd & _ & _ & Hl & Hm).
  cbv zeta. split; [exact Hd|]. split; [exact Hl | exact Hm].
Defined.

(** ** Instances on the sample session *)

Lemma loadWorkout_never_stuck_and_fails_softly_example :
  let h := fst (run (loadWorkout Scenario.formatDateAsString Scenario.today
                       FetchRejected true) Scenario.on_last) in
  loading h = false
  /\ render h = ErrorScreen
  /\ currentExerciseIndex h = 1%nat.
Proof.
  pose proof (loadWorkout_never_stuck_and_fails_softly
                Scenario.formatDateAsString Scenario.today FetchRejected
                true Scenario.on_last) as H.
  cbv zeta in H. destruct H as (Hl & _ & _ & _ & Hrej).
  destruct (Hrej eq_refl) as (_ & Hr & _ & _ & Hc & _).
  cbv zeta. split; [exact Hl|]. split; [exact Hr|].
  rewrite Hc. reflexivity.
Defined.

Lemma started_workout_is_in_progress_example :
  isWorkoutInProgress
    (fst (step Scenario.formatDateAsString OpStart
            (fst (step Scenario.formatDateAsString
                    (Scenario.load Scenario.day) initial_state))))
  = true.
Proof.
  pose proof (started_workout_is_in_progress Scenario.formatDateAsString
                OpStart
                (fst (step Scenario.formatDateAsString
                        (Scenario.load Scenario.day) initial_state))) as H.
  cbv zeta in H. exact (proj1 H eq_refl eq_refl).
Defined.

Lemma skip_sends_no_log_and_fails_cleanly_example :
  fst (run (skipCurrentExercise
              (mkEnv UserSignedIn true true true false 0 (fixed_zone 0))
              Scenario.resting) Scenario.resting)
  = Scenario.resting.
Proof.
  pose proof (skip_sends_no_log_and_fails_cleanly
                (mkEnv UserSignedIn true true true false 0 (fixed_zone 0))
                Scenario.resting) as H.
  cbv zeta in H. destruct H as [_ Hfail].
  assert (Hin : In (Call (SkipExercise 3 11) false)
                  (snd (run (skipCurrentExercise
                               (mkEnv UserSignedIn true true true false 0 (fixed_zone 0))
                               Scenario.resting) Scenario.resting)))
    by (vm_compute; tauto).
  destruct (Hfail 3 11 Hin) as [Hs _].
  rewrite Hs. vm_compute. reflexivity.
Defined.
